(** * agent-debug-ui: the graph loader, the trace stream decoder and the
      payload classifier of the two [App] components

    The repository holds two variants of the React component [App]:
    - [src/App.jsx]: the stateless console (module [AppJsx] below);
    - the thread-aware console (module [Threads] below), the [App] that
      comes with the Vite configuration.
    Both fetch a graph description, lay it out with dagre, and decode a
    server-sent event stream into trace steps.

    JavaScript values are embedded as the inductive type [value]; a thrown
    exception is the [Throw] case of [result]; React state is a record that
    the handlers pass along explicitly. *)

From Stdlib Require Import ZArith List String Ascii Bool Lia DecimalString.
From Stdlib Require Import DecimalZ DecimalPos FinFun.
From stdpp Require Import gmap strings.
Import ListNotations.
Open Scope string_scope.
Open Scope list_scope.

Set Warnings "-register-all".

(** ** JavaScript values *)

(** The values that [JSON.parse] and [Response.json] produce, plus
    [undefined]. Numbers are the integers that a double holds exactly and
    prints digit by digit, those of magnitude up to 2^53. Strings are given
    by their UTF-8 encoding. [VObject] lists the own properties in
    enumeration order, with distinct keys. *)
Inductive value : Type :=
| VUndefined
| VNull
| VBool (b : bool)
| VNumber (n : Z)
| VString (s : string)
| VArray (items : list value)
| VObject (props : list (string * value)).

Inductive exn : Type := TypeError | SyntaxError | NetworkError.

Inductive result (A : Type) : Type :=
| Ok (a : A)
| Throw (e : exn).
Arguments Ok {A} a.
Arguments Throw {A} e.

Definition rbind {A B} (r : result A) (k : A -> result B) : result B :=
  match r with
  | Ok a => k a
  | Throw e => Throw e
  end.

Notation "'let!' x ':=' r 'in' k" := (rbind r (fun x => k))
  (at level 10, x name, r at level 100, k at level 200).

(** [mapM f l]: [l.map(f)] for a callback that may throw; the first
    exception aborts the iteration. *)
Fixpoint mapM {A B} (f : A -> result B) (l : list A) : result (list B) :=
  match l with
  | [] => Ok []
  | a :: l' =>
      match f a with
      | Throw e => Throw e
      | Ok b =>
          match mapM f l' with
          | Throw e => Throw e
          | Ok bs => Ok (b :: bs)
          end
      end
  end.

Definition string_of_Z (n : Z) : string := NilZero.string_of_int (Z.to_int n).

(** The property key of array index [i]. *)
Definition index_key (i : nat) : string := string_of_Z (Z.of_nat i).

(** The truthiness test of [if], [||], [&&] and [!]. *)
Definition truthy (v : value) : bool :=
  match v with
  | VUndefined | VNull => false
  | VBool b => b
  | VNumber n => negb (n =? 0)%Z
  | VString s => negb (s =? "")
  | VArray _ | VObject _ => true
  end.

(** [a || b] *)
Definition or_else (a b : value) : value := if truthy a then a else b.

Definition join (sep : string) (parts : list string) : string :=
  match parts with
  | [] => ""
  | p :: ps => fold_left (fun acc q => acc +:+ sep +:+ q) ps p
  end.

(** The string that [String(v)] returns, when it returns one. An array
    joins its elements with a comma, [null] and [undefined] elements
    giving the empty string. *)
Fixpoint ToString (v : value) : string :=
  match v with
  | VUndefined => "undefined"
  | VNull => "null"
  | VBool true => "true"
  | VBool false => "false"
  | VNumber n => string_of_Z n
  | VString s => s
  | VArray items =>
      join "," (map (fun x => match x with
                              | VUndefined | VNull => ""
                              | _ => ToString x
                              end) items)
  | VObject _ => "[object Object]"
  end.

(** The conversion of [v] to a string finds no primitive value. An object
    is converted by its [toString]: the inherited one answers, unless the
    object has an own property of that name, which in a value of JSON is
    no function; the inherited [valueOf] then returns the object itself,
    and the conversion gives up. An array converts each of its elements
    other than [null] and [undefined]. *)
Fixpoint unprintable (v : value) : bool :=
  match v with
  | VObject props => existsb (fun kv => fst kv =? "toString") props
  | VArray items => existsb unprintable items
  | _ => false
  end.

(** [String(v)], the template literal [`${v}`] and the use of [v] as a
    property key: a TypeError when the conversion finds no primitive. *)
Definition String_ (v : value) : result string :=
  if unprintable v then Throw TypeError else Ok (ToString v).

Fixpoint chars (s : string) : list value :=
  match s with
  | EmptyString => []
  | String c s' => VString (String c EmptyString) :: chars s'
  end.

Fixpoint indexed {A} (i : nat) (l : list A) : list (string * A) :=
  match l with
  | [] => []
  | x :: l' => (index_key i, x) :: indexed (S i) l'
  end.

(** The own enumerable string-keyed properties of a value that is neither
    [null] nor [undefined], in enumeration order. *)
Definition own_entries (v : value) : list (string * value) :=
  match v with
  | VObject props => props
  | VArray items => indexed 0 items
  | VString s => indexed 0 (chars s)
  | _ => []
  end.

Fixpoint assoc (k : string) (props : list (string * value)) : option value :=
  match props with
  | [] => None
  | (k', v) :: props' => if k =? k' then Some v else assoc k props'
  end.

(** [v.k] and [v[k]]: reading a property of [null] or [undefined] throws a
    TypeError; a missing property reads as [undefined]. Besides the own
    properties, arrays and strings have [length]. The keys this program
    reads ([id], [name], [source], [target], [node], [content], [kwargs],
    [nodes], [edges], [isStateful], [updates] and the first own key of a
    frame) name no inherited property. *)
Definition get (v : value) (k : string) : result value :=
  match v with
  | VUndefined | VNull => Throw TypeError
  | _ =>
      match assoc k (own_entries v) with
      | Some x => Ok x
      | None =>
          match v with
          | VArray items =>
              if k =? "length" then Ok (VNumber (Z.of_nat (length items)))
              else Ok VUndefined
          | VString s =>
              if k =? "length" then Ok (VNumber (Z.of_nat (String.length s)))
              else Ok VUndefined
          | _ => Ok VUndefined
          end
      end
  end.

(** [v?.k] *)
Definition get_opt (v : value) (k : string) : value :=
  match get v k with
  | Ok x => x
  | Throw _ => VUndefined
  end.

(** [Object.entries(v)] and [Object.keys(v)] throw on [null] and
    [undefined]. *)
Definition Object_entries (v : value) : result (list (string * value)) :=
  match v with
  | VUndefined | VNull => Throw TypeError
  | _ => Ok (own_entries v)
  end.

Definition Object_keys (v : value) : result (list string) :=
  match v with
  | VUndefined | VNull => Throw TypeError
  | _ => Ok (map fst (own_entries v))
  end.

(** Assignment of one property: an existing key keeps its place. *)
Fixpoint set_prop (k : string) (v : value) (props : list (string * value))
  : list (string * value) :=
  match props with
  | [] => [(k, v)]
  | (k', v') :: props' =>
      if k =? k' then (k, v) :: props' else (k', v') :: set_prop k v props'
  end.

(** [{ ...props, ...src }]: the spread of [null], [undefined], a number or
    a boolean adds nothing. *)
Definition spread (props : list (string * value)) (src : value)
  : list (string * value) :=
  match src with
  | VUndefined | VNull => props
  | _ => fold_left (fun acc kv => set_prop (fst kv) (snd kv) acc)
                   (own_entries src) props
  end.


Definition is_string (v : value) : bool :=
  match v with VString _ => true | _ => false end.

(** [s.includes(pat)] on strings. *)
Fixpoint includes (pat s : string) : bool :=
  String.prefix pat s
  || match s with
     | EmptyString => false
     | String _ s' => includes pat s'
     end.

(** [x.includes(arg)] on an arbitrary receiver [x], for a string argument:
    strings search for a substring, arrays for an element; anything else
    has no such method, and the call throws a TypeError. *)
Definition call_includes (x : value) (arg : string) : result bool :=
  match x with
  | VString s => Ok (includes arg s)
  | VArray items =>
      Ok (existsb (fun y => match y with
                            | VString t => t =? arg
                            | _ => false
                            end) items)
  | _ => Throw TypeError
  end.

(** [xs.forEach], [xs.filter] and [xs.map] exist on arrays only: on any
    other JSON value the call throws a TypeError. *)
Definition as_array (v : value) : result (list value) :=
  match v with
  | VArray items => Ok items
  | _ => Throw TypeError
  end.

(** ** The dagre graph

    [dagre.graphlib.Graph] keeps its nodes in an object that maps a node
    id to the label of the node, and its edges in an object keyed by the
    pair of endpoints. An assignment to the key [__proto__] of the node
    object sets its prototype and adds no own property, so that this one
    id never becomes a node. [hasNode] is taken as the test for an own
    property of the node object, the id being one key; a release of the
    library that answers it with lodash's [has] reads an id with dots or
    brackets as a path into the labels, which is left out here. The
    layout itself ([dagre.layout]) is the library's; it gives every node
    of the graph a position and adds or removes none. *)
Module Graphlib.

Record label : Type := { width : Z; height : Z }.

Record Graph : Type := {
  _nodes : gmap string (option label);
  _edgeObjs : gset (string * string)
}.

Definition empty : Graph := {| _nodes := ∅; _edgeObjs := ∅ |}.

(** [this._nodes[v] = value] *)
Definition assign (v : string) (l : option label)
  (ns : gmap string (option label)) : gmap string (option label) :=
  if v =? "__proto__" then ns else <[v := l]> ns.

Definition setNode (v : string) (l : label) (g : Graph) : Graph :=
  {| _nodes := assign v (Some l) (_nodes g); _edgeObjs := _edgeObjs g |}.

Definition hasNode (g : Graph) (v : string) : bool :=
  match _nodes g !! v with
  | Some _ => true
  | None => false
  end.

(** [setEdge(v, w)] creates the endpoints that do not exist yet, without
    a label. *)
Definition ensureNode (v : string) (g : Graph) : Graph :=
  if hasNode g v then g
  else {| _nodes := assign v None (_nodes g); _edgeObjs := _edgeObjs g |}.

Definition setEdge (v w : string) (g : Graph) : Graph :=
  let g' := ensureNode w (ensureNode v g) in
  {| _nodes := _nodes g'; _edgeObjs := {[ (v, w) ]} ∪ _edgeObjs g' |}.

End Graphlib.

(** A node and an edge as handed to React Flow. The position is the one
    dagre computed and is not part of the embedding. *)
Record FlowNode : Type := {
  node_id : value;
  node_label : value;
  node_virtual : bool
}.

Record FlowEdge : Type := {
  edge_id : string;
  edge_source : string;
  edge_target : string
}.

(** ** React state and exceptions

    A handler is a state transformer that may end in an exception; the
    state updates made before the exception are kept, as in JavaScript. *)
Section Handler.
Context {S : Type}.

Definition M (A : Type) : Type := S -> S * result A.

Definition ret {A} (a : A) : M A := fun s => (s, Ok a).

Definition bind {A B} (m : M A) (k : A -> M B) : M B :=
  fun s =>
    match m s with
    | (s', Ok a) => k a s'
    | (s', Throw e) => (s', Throw e)
    end.

Definition lift {A} (r : result A) : M A := fun s => (s, r).

Definition update (f : S -> S) : M unit := fun s => (f s, Ok tt).

(** [try { m } catch (err) {}] *)
Definition try_catch (m : M unit) : M unit :=
  fun s => (fst (m s), Ok tt).

(** [xs.forEach(f)] *)
Fixpoint forEach {A} (f : A -> M unit) (l : list A) : M unit :=
  match l with
  | [] => ret tt
  | a :: l' => bind (f a) (fun _ => forEach f l')
  end.

End Handler.

Notation "'do!' x ':=' m 'in' k" := (bind m (fun x => k))
  (at level 10, x name, m at level 100, k at level 200).
Notation "'run!' m 'in' k" := (bind m (fun _ => k))
  (at level 10, m at level 100, k at level 200).

(** [xs.reduce] with a callback that may throw. *)
Fixpoint foldM {A B} (f : B -> A -> result B) (l : list A) (b : B) : result B :=
  match l with
  | [] => Ok b
  | a :: l' => let! b' := f b a in foldM f l' b'
  end.

(** ** Strings *)

Definition LF : ascii := ascii_of_nat 10.

(** The frame delimiter ['\n\n']. *)
Definition blank_line : string := String LF (String LF EmptyString).

Definition cons_head (c : ascii) (parts : list string) : list string :=
  match parts with
  | [] => [String c EmptyString]
  | p :: ps => String c p :: ps
  end.

(** [s.split('\n\n')]: the pieces between the successive occurrences of
    the delimiter, found from left to right. *)
Fixpoint split_blank_line (s : string) : list string :=
  match s with
  | EmptyString => [EmptyString]
  | String c s' =>
      match s' with
      | String c' s'' =>
          if Ascii.eqb c LF && Ascii.eqb c' LF
          then EmptyString :: split_blank_line s''
          else cons_head c (split_blank_line s')
      | EmptyString => cons_head c (split_blank_line s')
      end
  end.

Fixpoint drop (n : nat) (s : string) : string :=
  match n, s with
  | O, _ => s
  | S n', EmptyString => EmptyString
  | S n', String _ s' => drop n' s'
  end.

(** [s.replace(pat, rep)] for a string pattern: the first occurrence only. *)
Fixpoint replace (pat rep s : string) : string :=
  if String.prefix pat s then rep +:+ drop (String.length pat) s
  else match s with
       | EmptyString => EmptyString
       | String c s' => String c (replace pat rep s')
       end.

(** The white space and the line terminators of ECMAScript, by the bytes
    of their UTF-8 encoding. Of one byte: U+0009 to U+000D and U+0020. *)
Definition is_space (c : ascii) : bool :=
  let n := nat_of_ascii c in
  Nat.eqb n 32 || (Nat.leb 9 n && Nat.leb n 13).

(** Of two bytes: U+00A0. *)
Definition is_space2 (c1 c2 : ascii) : bool :=
  Nat.eqb (nat_of_ascii c1) 194 && Nat.eqb (nat_of_ascii c2) 160.

(** Of three bytes: U+1680, U+2000 to U+200A, U+2028, U+2029, U+202F,
    U+205F, U+3000 and U+FEFF. *)
Definition is_space3 (c1 c2 c3 : ascii) : bool :=
  let n1 := nat_of_ascii c1 in
  let n2 := nat_of_ascii c2 in
  let n3 := nat_of_ascii c3 in
  (Nat.eqb n1 225 && Nat.eqb n2 154 && Nat.eqb n3 128)
  || (Nat.eqb n1 226 && Nat.eqb n2 128
      && ((Nat.leb 128 n3 && Nat.leb n3 138)
          || Nat.eqb n3 168 || Nat.eqb n3 169 || Nat.eqb n3 175))
  || (Nat.eqb n1 226 && Nat.eqb n2 129 && Nat.eqb n3 159)
  || (Nat.eqb n1 227 && Nat.eqb n2 128 && Nat.eqb n3 128)
  || (Nat.eqb n1 239 && Nat.eqb n2 187 && Nat.eqb n3 191).

(** [s.trimStart()] *)
Fixpoint trimStart (s : string) : string :=
  match s with
  | EmptyString => EmptyString
  | String c1 s1 =>
      if is_space c1 then trimStart s1
      else
        match s1 with
        | String c2 s2 =>
            if is_space2 c1 c2 then trimStart s2
            else
              match s2 with
              | String c3 s3 =>
                  if is_space3 c1 c2 c3 then trimStart s3 else s
              | EmptyString => s
              end
        | EmptyString => s
        end
  end.

(** The string is made of white space only. *)
Fixpoint all_space (s : string) : bool :=
  match s with
  | EmptyString => true
  | String c1 s1 =>
      if is_space c1 then all_space s1
      else
        match s1 with
        | String c2 s2 =>
            if is_space2 c1 c2 then all_space s2
            else
              match s2 with
              | String c3 s3 => is_space3 c1 c2 c3 && all_space s3
              | EmptyString => false
              end
        | EmptyString => false
        end
  end.

(** [s.trimEnd()]: what comes before the white space that ends [s]. *)
Fixpoint trimEnd (s : string) : string :=
  match s with
  | EmptyString => EmptyString
  | String c s' => if all_space s then EmptyString else String c (trimEnd s')
  end.

(** [s.trim()] *)
Definition trim (s : string) : string := trimEnd (trimStart s).

(** ** [JSON.parse]

    A recursive-descent parser for the JSON texts whose numbers are
    integers without fraction or exponent, whose strings use the
    two-character escapes only and whose object keys are not array
    indices; on these texts it is [JSON.parse], and a text that is not
    JSON makes it throw a SyntaxError. The decoders below take the parser
    as a parameter, and the properties that are stated for every stream
    hold for every parser; this one reads the frames of the examples. *)
Module JSON.

Definition quote : ascii := ascii_of_nat 34.

Definition is_ws (c : ascii) : bool :=
  let n := nat_of_ascii c in
  Nat.eqb n 32 || Nat.eqb n 9 || Nat.eqb n 10 || Nat.eqb n 13.

Fixpoint skip_ws (s : string) : string :=
  match s with
  | EmptyString => EmptyString
  | String c s' => if is_ws c then skip_ws s' else s
  end.

Definition digit (c : ascii) : option Z :=
  let n := nat_of_ascii c in
  if Nat.leb 48 n && Nat.leb n 57 then Some (Z.of_nat (n - 48)) else None.

Fixpoint digits (acc : Z) (s : string) : Z * string :=
  match s with
  | EmptyString => (acc, s)
  | String c s' =>
      match digit c with
      | Some d => digits (10 * acc + d) s'
      | None => (acc, s)
      end
  end.

(** The integer part of a number literal; a fraction or an exponent is
    not in the subset. *)
Definition natural (s : string) : option (Z * string) :=
  match s with
  | EmptyString => None
  | String c s' =>
      match digit c with
      | None => None
      | Some d =>
          let '(n, rest) := if (d =? 0)%Z then (0%Z, s') else digits d s' in
          match rest with
          | String c' _ =>
              if Ascii.eqb c' "." || Ascii.eqb c' "e" || Ascii.eqb c' "E"
                 || match digit c' with Some _ => true | None => false end
              then None else Some (n, rest)
          | EmptyString => Some (n, rest)
          end
      end
  end.

Definition escape (c : ascii) : option ascii :=
  if Ascii.eqb c quote then Some quote
  else if Ascii.eqb c "\" then Some "\"%char
  else if Ascii.eqb c "/" then Some "/"%char
  else if Ascii.eqb c "b" then Some (ascii_of_nat 8)
  else if Ascii.eqb c "f" then Some (ascii_of_nat 12)
  else if Ascii.eqb c "n" then Some (ascii_of_nat 10)
  else if Ascii.eqb c "r" then Some (ascii_of_nat 13)
  else if Ascii.eqb c "t" then Some (ascii_of_nat 9)
  else None.

(** The characters of a string literal after its opening quote. *)
Fixpoint string_body (s : string) : option (string * string) :=
  match s with
  | EmptyString => None
  | String c s' =>
      if Ascii.eqb c quote then Some (EmptyString, s')
      else if Nat.ltb (nat_of_ascii c) 32 then None
      else if Ascii.eqb c "\" then
        match s' with
        | String e s'' =>
            match escape e, string_body s'' with
            | Some c', Some (body, rest) => Some (String c' body, rest)
            | _, _ => None
            end
        | EmptyString => None
        end
      else
        match string_body s' with
        | Some (body, rest) => Some (String c body, rest)
        | None => None
        end
  end.

Fixpoint value_ (fuel : nat) (s : string) {struct fuel}
  : option (value * string) :=
  match fuel with
  | O => None
  | S fuel' =>
      match skip_ws s with
      | String c r =>
          if Ascii.eqb c "{" then
            match skip_ws r with
            | String c' r' =>
                if Ascii.eqb c' "}" then Some (VObject [], r')
                else members fuel' [] r
            | EmptyString => None
            end
          else if Ascii.eqb c "[" then
            match skip_ws r with
            | String c' r' =>
                if Ascii.eqb c' "]" then Some (VArray [], r')
                else elements fuel' [] r
            | EmptyString => None
            end
          else if Ascii.eqb c quote then
            match string_body r with
            | Some (str, rest) => Some (VString str, rest)
            | None => None
            end
          else if Ascii.eqb c "-" then
            match natural r with
            | Some (n, rest) => Some (VNumber (- n), rest)
            | None => None
            end
          else if String.prefix "true" (String c r) then
            Some (VBool true, drop 4 (String c r))
          else if String.prefix "false" (String c r) then
            Some (VBool false, drop 5 (String c r))
          else if String.prefix "null" (String c r) then
            Some (VNull, drop 4 (String c r))
          else
            match natural (String c r) with
            | Some (n, rest) => Some (VNumber n, rest)
            | None => None
            end
      | EmptyString => None
      end
  end
with elements (fuel : nat) (acc : list value) (s : string) {struct fuel}
  : option (value * string) :=
  match fuel with
  | O => None
  | S fuel' =>
      match value_ fuel' s with
      | Some (v, rest) =>
          match skip_ws rest with
          | String c r =>
              if Ascii.eqb c "," then elements fuel' (acc ++ [v]) r
              else if Ascii.eqb c "]" then Some (VArray (acc ++ [v]), r)
              else None
          | EmptyString => None
          end
      | None => None
      end
  end
with members (fuel : nat) (acc : list (string * value)) (s : string)
  {struct fuel} : option (value * string) :=
  match fuel with
  | O => None
  | S fuel' =>
      match skip_ws s with
      | String q r =>
          if Ascii.eqb q quote then
            match string_body r with
            | Some (key, rest) =>
                match skip_ws rest with
                | String colon r' =>
                    if Ascii.eqb colon ":" then
                      match value_ fuel' r' with
                      | Some (v, rest') =>
                          match skip_ws rest' with
                          | String c r'' =>
                              if Ascii.eqb c ","
                              then members fuel' (set_prop key v acc) r''
                              else if Ascii.eqb c "}"
                              then Some (VObject (set_prop key v acc), r'')
                              else None
                          | EmptyString => None
                          end
                      | None => None
                      end
                    else None
                | EmptyString => None
                end
            | None => None
            end
          else None
      | EmptyString => None
      end
  end.

Definition parse (text : string) : result value :=
  match value_ (S (String.length text)) text with
  | Some (v, rest) =>
      match skip_ws rest with
      | EmptyString => Ok v
      | String _ _ => Throw SyntaxError
      end
  | None => Throw SyntaxError
  end.

(** [JSON.stringify(v)], without indentation. A property whose value is
    [undefined] is left out; an [undefined] element of an array is written
    as [null]. *)
Definition hex (n : nat) : ascii :=
  ascii_of_nat (if Nat.ltb n 10 then 48 + n else 87 + n).

Definition escaped (c : ascii) : string :=
  let n := nat_of_ascii c in
  if Ascii.eqb c quote then String "\" (String quote EmptyString)
  else if Ascii.eqb c "\" then String "\" (String "\" EmptyString)
  else if Nat.eqb n 8 then String "\" (String "b" EmptyString)
  else if Nat.eqb n 12 then String "\" (String "f" EmptyString)
  else if Nat.eqb n 10 then String "\" (String "n" EmptyString)
  else if Nat.eqb n 13 then String "\" (String "r" EmptyString)
  else if Nat.eqb n 9 then String "\" (String "t" EmptyString)
  else if Nat.ltb n 32
  then String "\" (String "u" (String "0" (String "0"
         (String (hex (n / 16)) (String (hex (n mod 16)) EmptyString)))))
  else String c EmptyString.

Fixpoint quoted_body (s : string) : string :=
  match s with
  | EmptyString => String quote EmptyString
  | String c s' => escaped c +:+ quoted_body s'
  end.

Definition quoted (s : string) : string := String quote (quoted_body s).

Fixpoint stringify (v : value) : string :=
  match v with
  | VUndefined | VNull => "null"
  | VBool true => "true"
  | VBool false => "false"
  | VNumber n => string_of_Z n
  | VString s => quoted s
  | VArray items => "[" +:+ join "," (map stringify items) +:+ "]"
  | VObject props =>
      "{" +:+ join ","
                (flat_map (fun kv =>
                             match kv with
                             | (_, VUndefined) => []
                             | (k, x) => [quoted k +:+ ":" +:+ stringify x]
                             end) props)
          +:+ "}"
  end.

End JSON.

(** The bodies of the frames used below, as the server writes them:
    [{"node":<node>,"content":<content>}], [{"done":true}] and
    [{<node>:<content>}]. *)
Definition node_frame (node content : string) : string :=
  JSON.stringify (VObject [("node", VString node); ("content", VString content)]).

Definition done_frame : string :=
  JSON.stringify (VObject [("done", VBool true)]).

Definition keyed_frame (node content : string) : string :=
  JSON.stringify (VObject [(node, VString content)]).

(** ** The network

    How a response to [POST /chat] goes on: [fetch] rejects, or it
    resolves with a body whose reader yields [chunks] and then reports the
    end of the stream ([failed = false]) or rejects ([failed = true]). A
    chunk is given as the text that [decoder.decode(value)] returns for
    it. *)
Record Body : Type := { chunks : list string; failed : bool }.

Inductive Outcome : Type :=
| Rejected
| Resolved (body : Body).

(** [xs.filter(p)] for a predicate that may throw. *)
Fixpoint filterM {A} (p : A -> result bool) (l : list A) : result (list A) :=
  match l with
  | [] => Ok []
  | a :: l' =>
      let! keep := p a in
      let! rest := filterM p l' in
      Ok (if keep then a :: rest else rest)
  end.

(** [xs.map((x, i) => f(x, i))] for a callback that may throw. *)
Fixpoint mapiM_from {A B} (i : nat) (f : A -> nat -> result B) (l : list A)
  : result (list B) :=
  match l with
  | [] => Ok []
  | a :: l' =>
      let! b := f a i in
      let! bs := mapiM_from (S i) f l' in
      Ok (b :: bs)
  end.

(** ** The thread-aware console *)
Module Threads.

Definition NODE_WIDTH : Z := 180.
Definition NODE_HEIGHT : Z := 50.

(** The body of a [POST /chat] request. *)
Record Request : Type := {
  req_input : string;
  req_threadId : string
}.

(** The [useState] cells of [App] that the handlers below write, and
    [requests], the [POST /chat] calls made so far, oldest first. *)
Record State : Type := {
  nodes : list FlowNode;
  edges : list FlowEdge;
  messages : list value;
  currentThreadId : string;
  isStateful : value;
  activeNode : value;
  requests : list Request
}.

Definition setNodes (v : list FlowNode) (s : State) : State :=
  {| nodes := v; edges := edges s; messages := messages s;
     currentThreadId := currentThreadId s; isStateful := isStateful s;
     activeNode := activeNode s; requests := requests s |}.

Definition setEdges (v : list FlowEdge) (s : State) : State :=
  {| nodes := nodes s; edges := v; messages := messages s;
     currentThreadId := currentThreadId s; isStateful := isStateful s;
     activeNode := activeNode s; requests := requests s |}.

(** [setMessages(prev => f(prev))]; [setMessages(v)] is the constant [f]. *)
Definition setMessages (f : list value -> list value) (s : State) : State :=
  {| nodes := nodes s; edges := edges s; messages := f (messages s);
     currentThreadId := currentThreadId s; isStateful := isStateful s;
     activeNode := activeNode s; requests := requests s |}.

Definition setCurrentThreadId (v : string) (s : State) : State :=
  {| nodes := nodes s; edges := edges s; messages := messages s;
     currentThreadId := v; isStateful := isStateful s;
     activeNode := activeNode s; requests := requests s |}.

Definition setIsStateful (v : value) (s : State) : State :=
  {| nodes := nodes s; edges := edges s; messages := messages s;
     currentThreadId := currentThreadId s; isStateful := v;
     activeNode := activeNode s; requests := requests s |}.

Definition setActiveNode (v : value) (s : State) : State :=
  {| nodes := nodes s; edges := edges s; messages := messages s;
     currentThreadId := currentThreadId s; isStateful := isStateful s;
     activeNode := v; requests := requests s |}.

(** The call [fetch('/chat', ...)] *)
Definition post (r : Request) (s : State) : State :=
  {| nodes := nodes s; edges := edges s; messages := messages s;
     currentThreadId := currentThreadId s; isStateful := isStateful s;
     activeNode := activeNode s; requests := requests s ++ [r] |}.

(** *** The graph loader *)

(** [Object.entries(data.nodes).map(([id, val]) => ({ id: String(id), ...val }))] *)
Definition rawNodes (data : value) : result (list value) :=
  let! ns := get data "nodes" in
  let! entries := Object_entries ns in
  Ok (map (fun kv => VObject (spread [("id", VString (fst kv))] (snd kv)))
          entries).

(** [raw.forEach(n => g.setNode(n.id, {...}))]: the node id is used as a
    property key, that is, as [String(n.id)]. *)
Definition addNodes (raw : list value) (g : Graphlib.Graph)
  : result Graphlib.Graph :=
  foldM (fun g n =>
           let! id := get n "id" in
           let! v := String_ id in
           Ok (Graphlib.setNode v
                 {| Graphlib.width := NODE_WIDTH;
                    Graphlib.height := NODE_HEIGHT |} g))
        raw g.

(** [e => g.hasNode(String(e.source)) && g.hasNode(String(e.target))] *)
Definition isValidEdge (g : Graphlib.Graph) (e : value) : result bool :=
  let! src := get e "source" in
  let! v := String_ src in
  if Graphlib.hasNode g v then
    let! tgt := get e "target" in
    let! w := String_ tgt in
    Ok (Graphlib.hasNode g w)
  else Ok false.

(** [validEdges.forEach(e => g.setEdge(String(e.source), String(e.target)))] *)
Definition addEdges (es : list value) (g : Graphlib.Graph)
  : result Graphlib.Graph :=
  foldM (fun g e =>
           let! src := get e "source" in
           let! v := String_ src in
           let! tgt := get e "target" in
           let! w := String_ tgt in
           Ok (Graphlib.setEdge v w g))
        es g.

(** The element of [setNodes(raw.map(n => ...))]: the id is converted to
    a string as the key of [g.node(n.id)] and in the class name. *)
Definition flowNode (n : value) : result FlowNode :=
  let! id := get n "id" in
  let! name := get n "name" in
  let! v := String_ id in
  let! virtual := call_includes id "__" in
  Ok {| node_id := id; node_label := or_else name id;
        node_virtual := virtual |}.

(** The element of [setEdges(validEdges.map((e, i) => ...))] *)
Definition flowEdge (e : value) (i : nat) : result FlowEdge :=
  let! src := get e "source" in
  let! v := String_ src in
  let! tgt := get e "target" in
  let! w := String_ tgt in
  Ok {| edge_id := "e-" +:+ index_key i;
        edge_source := v; edge_target := w |}.

(** What the loader computes from the response of [GET /graph] when no
    step throws: the nodes and the edges given to React Flow, and the
    graph given to [dagre.layout]. *)
Definition graphModel (data : value)
  : result (list FlowNode * list FlowEdge * Graphlib.Graph) :=
  let! raw := rawNodes data in
  let! g := addNodes raw Graphlib.empty in
  let! es := get data "edges" in
  let! es := as_array es in
  let! validEdges := filterM (isValidEdge g) es in
  let! g := addEdges validEdges g in
  let! ns := mapM flowNode raw in
  let! fes := mapiM_from 0 flowEdge validEdges in
  Ok (ns, fes, g).

(** The callback of [fetch('/graph').then(r => r.json()).then(...)],
    statement by statement. *)
Definition onGraph (data : value) : M unit :=
  do! stateful := lift (get data "isStateful") in
  run! update (setIsStateful stateful) in
  do! raw := lift (rawNodes data) in
  do! g := lift (addNodes raw Graphlib.empty) in
  do! es := lift (get data "edges") in
  do! es := lift (as_array es) in
  do! validEdges := lift (filterM (isValidEdge g) es) in
  do! g := lift (addEdges validEdges g) in
  do! ns := lift (mapM flowNode raw) in
  run! update (setNodes ns) in
  do! fes := lift (mapiM_from 0 flowEdge validEdges) in
  update (setEdges fes).

(** *** Threads *)

(** [loadThread(id)]: [history] is what [GET /history/:id] answers,
    [None] when the request fails. *)
Definition loadThread (id : string) (history : option (list value))
  (s : State) : State :=
  let s := setCurrentThreadId id s in
  match history with
  | Some steps => setMessages (fun _ => steps) s
  | None => s
  end.

(** The click on the plus sign; [now] is [Date.now()]. *)
Definition newThread (now : Z) (s : State) : State :=
  setMessages (fun _ => [])
    (setCurrentThreadId ("debug-" +:+ string_of_Z now) s).

(** [onMouseEnter] and [onMouseLeave] of a step of the trace. *)
Definition onMouseEnter (step : value) : M unit :=
  do! node := lift (get step "node") in
  update (setActiveNode node).

Definition onMouseLeave : M unit := update (setActiveNode VNull).

(** *** The trace stream *)

Definition userStep (val : string) : value :=
  VObject [("node", VString "user");
           ("updates",
            VObject [("messages",
                      VArray [VObject [("content", VString val);
                                       ("role", VString "user")]])])].

Definition assistantStep (node content : value) : value :=
  VObject [("node", node);
           ("updates",
            VObject [("messages",
                      VArray [VObject [("content", content);
                                       ("role", VString "assistant")]])])].

(** [content !== "..."] *)
Definition is_sentinel (content : value) : bool :=
  match content with
  | VString s => s =? "..."
  | _ => false
  end.

Section Decoder.

Variable JSON_parse : string -> result value.

(** The body of the [try] block, for one line of a chunk. *)
Definition decodeFrame (line : string) : M unit :=
  do! data := lift (JSON_parse (replace "data: " "" line)) in
  do! node := lift (get data "node") in
  run! (if truthy node then update (setActiveNode node) else ret tt) in
  do! content := lift (get data "content") in
  if truthy content && negb (is_sentinel content)
  then update (setMessages (fun p => p ++ [assistantStep node content]))
  else ret tt.

(** The callback of [split('\n\n').forEach(line => ...)] *)
Definition onLine (line : string) : M unit :=
  if negb (String.prefix "data: " line) then ret tt
  else try_catch (decodeFrame line).

Definition onChunk (chunk : string) : M unit :=
  forEach onLine (split_blank_line chunk).

(** The [while (true)] loop around [reader.read()] *)
Fixpoint readAll (cs : list string) (fails : bool) : M unit :=
  match cs with
  | [] => if fails then lift (Throw NetworkError) else ret tt
  | c :: cs' => run! onChunk c in readAll cs' fails
  end.

(** The calls of [onRun] that write the state or reach the network,
    up to its first [await]. *)
Inductive Call : Type :=
| Append (step : value)
| Fetch (r : Request).

(** [setMessages(prev => [...prev, step])] and [fetch('/chat', ...)] *)
Definition call (s : State) (c : Call) : State :=
  match c with
  | Append step => setMessages (fun prev => prev ++ [step]) s
  | Fetch r => post r s
  end.

(** The calls of [onRun] for a non-empty input, in the order of its
    statements; [threadId] is the [currentThreadId] of the render that
    the handler belongs to. *)
Definition onRun_calls (val threadId : string) : list Call :=
  [Append (userStep val);
   Fetch {| req_input := val; req_threadId := threadId |}].

(** [onRun] up to its first [await]: [None] when the input is empty
    and the handler returns at once, otherwise the state in which
    the request is pending and the request. *)
Definition onRun_begin (val : string) (s : State)
  : option (State * Request) :=
  if val =? "" then None
  else
    Some (fold_left call (onRun_calls val (currentThreadId s)) s,
          {| req_input := val; req_threadId := currentThreadId s |}).

(** [onRun] from the point where [fetch] settles. *)
Definition onRun_resume (o : Outcome) : M unit :=
  match o with
  | Rejected => lift (Throw NetworkError)
  | Resolved body =>
      run! readAll (chunks body) (failed body) in
      update (setActiveNode VNull)
  end.

(** [onRun], for the value [val] of the input field and a network
    that answers the request [r] with [net r]. *)
Definition onRun (val : string) (net : Request -> Outcome) : M unit :=
  fun s =>
    match onRun_begin val s with
    | None => (s, Ok tt)
    | Some (s', r) => onRun_resume (net r) s'
    end.

End Decoder.

(** *** The payload view *)

Inductive Shape : Type := MessageSequence | PlainText | StructuredData.

(** [Array.isArray(value) && value.length > 0 &&
     (value[0].content || value[0].kwargs)] *)
Definition isMessageList (v : value) : result value :=
  match v with
  | VArray items =>
      match items with
      | [] => Ok (VBool false)
      | first :: _ =>
          let! content := get first "content" in
          if truthy content then Ok content else get first "kwargs"
      end
  | _ => Ok (VBool false)
  end.

(** The branch that the view of one update takes. *)
Definition classify (v : value) : result Shape :=
  let! isList := isMessageList v in
  if truthy isList then Ok MessageSequence
  else if is_string v then Ok PlainText
  else Ok StructuredData.

(** [m.content || m.kwargs?.content || ""] *)
Definition messageText (m : value) : result value :=
  let! content := get m "content" in
  if truthy content then Ok content
  else
    let! kwargs := get m "kwargs" in
    Ok (or_else (get_opt kwargs "content") (VString "")).

(** What one update of a step shows: the texts of a message list, the
    string itself, or the value to pretty-print. *)
Inductive View : Type :=
| Messages (texts : list value)
| Text (key : string) (text : value)
| Json (key : string) (v : value).

Definition viewUpdate (key : string) (v : value) : result View :=
  let! shape := classify v in
  match shape with
  | MessageSequence =>
      let! items := as_array v in
      let! texts := mapM messageText items in
      Ok (Messages texts)
  | PlainText => Ok (Text key v)
  | StructuredData => Ok (Json key v)
  end.

(** [Object.entries(step.updates || {}).map(([key, value]) => ...)] *)
Definition viewStep (step : value) : result (list View) :=
  let! updates := get step "updates" in
  let! entries := Object_entries (or_else updates (VObject [])) in
  mapM (fun kv => viewUpdate (fst kv) (snd kv)) entries.

End Threads.

(** ** The stateless console, [src/App.jsx] *)
Module AppJsx.

Definition NODE_WIDTH : Z := 200.
Definition NODE_HEIGHT : Z := 60.

(** The body of a [POST /chat] request. *)
Record Request : Type := { req_input : string }.

(** The [useState] cells of [App] that the handlers below write, and
    [requests], the [POST /chat] calls made so far, oldest first. *)
Record State : Type := {
  nodes : list FlowNode;
  edges : list FlowEdge;
  messages : list value;
  activeNode : value;
  input : string;
  requests : list Request
}.

Definition setNodes (v : list FlowNode) (s : State) : State :=
  {| nodes := v; edges := edges s; messages := messages s;
     activeNode := activeNode s; input := input s;
     requests := requests s |}.

Definition setEdges (v : list FlowEdge) (s : State) : State :=
  {| nodes := nodes s; edges := v; messages := messages s;
     activeNode := activeNode s; input := input s;
     requests := requests s |}.

Definition setMessages (f : list value -> list value) (s : State) : State :=
  {| nodes := nodes s; edges := edges s; messages := f (messages s);
     activeNode := activeNode s; input := input s;
     requests := requests s |}.

Definition setActiveNode (v : value) (s : State) : State :=
  {| nodes := nodes s; edges := edges s; messages := messages s;
     activeNode := v; input := input s; requests := requests s |}.

Definition setInput (v : string) (s : State) : State :=
  {| nodes := nodes s; edges := edges s; messages := messages s;
     activeNode := activeNode s; input := v; requests := requests s |}.

(** The call [fetch('/chat', ...)] *)
Definition post (r : Request) (s : State) : State :=
  {| nodes := nodes s; edges := edges s; messages := messages s;
     activeNode := activeNode s; input := input s;
     requests := requests s ++ [r] |}.

(** *** The graph loader *)

(** [Array.isArray(data.nodes) ? data.nodes
     : Object.entries(data.nodes).map(([id, val]) => ({ id, ...val }))] *)
Definition rawNodes (data : value) : result (list value) :=
  let! ns := get data "nodes" in
  match ns with
  | VArray items => Ok items
  | _ =>
      let! entries := Object_entries ns in
      Ok (map (fun kv => VObject (spread [("id", VString (fst kv))] (snd kv)))
              entries)
  end.

(** [rawNodes.forEach(n => g.setNode(String(n.id), {...}))] *)
Definition addNodes (raw : list value) (g : Graphlib.Graph)
  : result Graphlib.Graph :=
  foldM (fun g n =>
           let! id := get n "id" in
           let! v := String_ id in
           Ok (Graphlib.setNode v
                 {| Graphlib.width := NODE_WIDTH;
                    Graphlib.height := NODE_HEIGHT |} g))
        raw g.

(** [data.edges.forEach(e => { if (g.hasNode(String(e.source)) &&
     g.hasNode(String(e.target))) g.setEdge(...) })] *)
Definition addEdges (es : list value) (g : Graphlib.Graph)
  : result Graphlib.Graph :=
  foldM (fun g e =>
           let! src := get e "source" in
           let! v := String_ src in
           if Graphlib.hasNode g v then
             let! tgt := get e "target" in
             let! w := String_ tgt in
             if Graphlib.hasNode g w
             then Ok (Graphlib.setEdge v w g)
             else Ok g
           else Ok g)
        es g.

(** The element of [setNodes(rawNodes.map(n => ...))] *)
Definition flowNode (n : value) : result FlowNode :=
  let! id := get n "id" in
  let! v := String_ id in
  let! name := get n "name" in
  let! virtual := call_includes id "__" in
  Ok {| node_id := VString v; node_label := or_else name id;
        node_virtual := virtual |}.

(** The element of [setEdges(data.edges.map((e, idx) => ...))] *)
Definition flowEdge (e : value) (idx : nat) : result FlowEdge :=
  let! src := get e "source" in
  let! v := String_ src in
  let! tgt := get e "target" in
  let! w := String_ tgt in
  Ok {| edge_id := "edge-" +:+ index_key idx;
        edge_source := v; edge_target := w |}.

(** What the loader computes from the response of [GET /graph] when no
    step throws: the nodes and the edges given to React Flow, and the
    graph given to [dagre.layout]. *)
Definition graphModel (data : value)
  : result (list FlowNode * list FlowEdge * Graphlib.Graph) :=
  let! raw := rawNodes data in
  let! g := addNodes raw Graphlib.empty in
  let! es := get data "edges" in
  let! es := as_array es in
  let! g := addEdges es g in
  let! ns := mapM flowNode raw in
  let! fes := mapiM_from 0 flowEdge es in
  Ok (ns, fes, g).

(** The callback of [fetch('/graph').then(r => r.json()).then(...)],
    statement by statement. *)
Definition onGraph (data : value) : M unit :=
  do! raw := lift (rawNodes data) in
  do! g := lift (addNodes raw Graphlib.empty) in
  do! es := lift (get data "edges") in
  do! es := lift (as_array es) in
  do! g := lift (addEdges es g) in
  do! ns := lift (mapM flowNode raw) in
  run! update (setNodes ns) in
  do! fes := lift (mapiM_from 0 flowEdge es) in
  update (setEdges fes).

(** *** The trace stream *)

Definition userMessage (val : string) : value :=
  VObject [("role", VString "user"); ("content", VString val)].

Definition assistantMessage (node content : value) : value :=
  VObject [("role", VString "assistant"); ("node", node);
           ("content", content)].

Section Decoder.

Variable JSON_parse : string -> result value.

(** The body of the [try] block, for one line of a chunk. *)
Definition decodeFrame (line : string) : M unit :=
  do! data := lift (JSON_parse (replace "data: " "" line)) in
  do! keys := lift (Object_keys data) in
  let node := match keys with
              | [] => VUndefined
              | k :: _ => VString k
              end in
  run! update (setActiveNode node) in
  do! content := lift (get data (ToString node)) in
  update (setMessages (fun p => p ++ [assistantMessage node content])).

(** The callback of [split('\n\n').forEach(line => ...)] *)
Definition onLine (line : string) : M unit :=
  if negb (String.prefix "data: " line) then ret tt
  else if includes "done" line then update (setActiveNode VNull)
  else try_catch (decodeFrame line).

Definition onChunk (chunk : string) : M unit :=
  forEach onLine (split_blank_line chunk).

(** The [while (true)] loop around [reader.read()] *)
Fixpoint readAll (cs : list string) (fails : bool) : M unit :=
  match cs with
  | [] => if fails then lift (Throw NetworkError) else ret tt
  | c :: cs' => run! onChunk c in readAll cs' fails
  end.

(** The calls of [handleSubmit] that write the state or reach the
    network, up to its first [await]. *)
Inductive Call : Type :=
| SetInput (v : string)
| Append (message : value)
| Fetch (r : Request).

(** [setInput(v)], [setMessages(p => [...p, message])] and
    [fetch('/chat', ...)] *)
Definition call (s : State) (c : Call) : State :=
  match c with
  | SetInput v => setInput v s
  | Append message => setMessages (fun p => p ++ [message]) s
  | Fetch r => post r s
  end.

(** The calls of [handleSubmit] for an input [val] that is not blank, in
    the order of its statements. *)
Definition handleSubmit_calls (val : string) : list Call :=
  [SetInput ""; Append (userMessage val); Fetch {| req_input := val |}].

(** [handleSubmit] up to its first [await]: [None] when the input is
    blank and the handler returns at once, otherwise the state in
    which the request is pending and the request. *)
Definition handleSubmit_begin (s : State) : option (State * Request) :=
  if trim (input s) =? "" then None
  else
    Some (fold_left call (handleSubmit_calls (input s)) s,
          {| req_input := input s |}).

(** [handleSubmit] from the point where [fetch] settles. *)
Definition handleSubmit_resume (o : Outcome) : M unit :=
  match o with
  | Rejected => lift (Throw NetworkError)
  | Resolved body => readAll (chunks body) (failed body)
  end.

Definition handleSubmit (net : Request -> Outcome) : M unit :=
  fun s =>
    match handleSubmit_begin s with
    | None => (s, Ok tt)
    | Some (s', r) => handleSubmit_resume (net r) s'
    end.

End Decoder.

End AppJsx.

(** ** The specification's reading of the payload view

    The two definitions of this module follow the words of the
    specification, not the code; they are compared with [Threads.classify]
    and [Threads.messageText] below. *)
Module Spec.

(** "exposes [k]": the value is an object with a property [k]. *)
Definition exposes (v : value) (k : string) : bool :=
  match v with
  | VObject props =>
      match assoc k props with Some _ => true | None => false end
  | _ => false
  end.

Definition field (v : value) (k : string) : value :=
  match v with
  | VObject props =>
      match assoc k props with Some x => x | None => VUndefined end
  | _ => VUndefined
  end.

(** "a non-empty array whose first element exposes [content] or
    [kwargs.content]" *)
Definition isMessageSequence (v : value) : bool :=
  match v with
  | VArray (first :: _) =>
      exposes first "content" || exposes (field first "kwargs") "content"
  | _ => false
  end.

(** "MessageSequence check first, then PlainText, else StructuredData" *)
Definition classify (v : value) : Threads.Shape :=
  if isMessageSequence v then Threads.MessageSequence
  else if is_string v then Threads.PlainText
  else Threads.StructuredData.

(** "[content] with fallback to [kwargs.content] with fallback to empty
    text", the fallback being taken when the field is absent. *)
Definition messageText (m : value) : value :=
  if exposes m "content" then field m "content"
  else if exposes (field m "kwargs") "content"
       then field (field m "kwargs") "content"
       else VString "".

End Spec.

(** ** The card of a step in the thread-aware console *)
Module StepCard.
Section Upper.

(** [s.toUpperCase()] on strings, a built-in of the runtime. *)
Variable toUpperCase : string -> string.

(** [x.toUpperCase()] on an arbitrary receiver: only a string has the
    method, on anything else the call throws a TypeError. *)
Definition call_toUpperCase (x : value) : result string :=
  match x with
  | VString s => Ok (toUpperCase s)
  | _ => Throw TypeError
  end.

(** [(step.node || 'SYSTEM').toUpperCase()] *)
Definition header (step : value) : result string :=
  let! node := get step "node" in
  call_toUpperCase (or_else node (VString "SYSTEM")).

(** The card of one step: its header, then the views of its updates. *)
Definition render (step : value) : result (string * list Threads.View) :=
  let! h := header step in
  let! views := Threads.viewStep step in
  Ok (h, views).

End Upper.
End StepCard.

(** ** The messages of [src/App.jsx] *)
Module MessageCard.

(** What the body of a message shows: Markdown of a text, the content as
    it is, or the content pretty-printed by [JSON.stringify]. *)
Inductive Body : Type :=
| Markdown (text : string)
| Plain (content : value)
| Pretty (content : value).

(** [typeof v === 'object'] *)
Definition typeof_object (v : value) : bool :=
  match v with
  | VNull | VArray _ | VObject _ => true
  | _ => false
  end.

(** [m.role !== 'user'] *)
Definition not_user (role : value) : bool :=
  match role with
  | VString r => negb (r =? "user")
  | _ => true
  end.

(** [renderMode === 'clean' && m.role !== 'user' ? <ReactMarkdown>
     {String(m.content)}</ReactMarkdown> : (typeof m.content === 'object'
     ? JSON.stringify(m.content, null, 2) : m.content)] *)
Definition body (renderMode : string) (m : value) : result Body :=
  if renderMode =? "clean" then
    let! role := get m "role" in
    if not_user role then
      let! content := get m "content" in
      let! text := String_ content in
      Ok (Markdown text)
    else
      let! content := get m "content" in
      Ok (if typeof_object content then Pretty content else Plain content)
  else
    let! content := get m "content" in
    Ok (if typeof_object content then Pretty content else Plain content).

End MessageCard.

(** ** The resizer of the thread-aware console

    Pixel coordinates are taken as integers. *)
Module Resizer.

Definition SIDEBAR_WIDTH : Z := 280.

(** The width of the graph panel, the [isResizing] ref, the two style
    properties of [document.body] that the handlers write, and the number
    of [resize-overlay] elements in the document. *)
Record State : Type := {
  graphWidth : Z;
  isResizing : bool;
  cursor : string;
  userSelect : string;
  overlays : nat
}.

(** The state of a freshly mounted component. *)
Definition initial : State :=
  {| graphWidth := 600; isResizing := false; cursor := "";
     userSelect := ""; overlays := 0 |}.

(** [containerRef.current.getBoundingClientRect()] *)
Record Rect : Type := { left : Z; width : Z }.

Definition startResizing (s : State) : State :=
  {| graphWidth := graphWidth s; isResizing := true; cursor := "col-resize";
     userSelect := "none"; overlays := S (overlays s) |}.

(** [onMove(e)]: [container] is [containerRef.current], [None] while the
    component is not mounted; [stateful] is the truth of [isStateful]. *)
Definition onMove (clientX : Z) (container : option Rect) (stateful : bool)
  (s : State) : State :=
  if negb (isResizing s) then s
  else
    match container with
    | None => s
    | Some rect =>
        let sidebarOffset := if stateful then SIDEBAR_WIDTH else 0%Z in
        let newWidth := (clientX - left rect - sidebarOffset)%Z in
        if (150 <? newWidth)%Z
           && (newWidth <? width rect - sidebarOffset - 250)%Z
        then {| graphWidth := newWidth; isResizing := isResizing s;
                cursor := cursor s; userSelect := userSelect s;
                overlays := overlays s |}
        else s
    end.

(** [document.getElementById('resize-overlay')?.remove()] removes one
    element, if there is one. *)
Definition onUp (s : State) : State :=
  if isResizing s
  then {| graphWidth := graphWidth s; isResizing := false;
          cursor := "default"; userSelect := "auto";
          overlays := Nat.pred (overlays s) |}
  else s.

Inductive Event : Type :=
| MouseDown
| MouseMove (clientX : Z) (container : option Rect) (stateful : bool)
| MouseUp.

Definition step (s : State) (e : Event) : State :=
  match e with
  | MouseDown => startResizing s
  | MouseMove x c b => onMove x c b s
  | MouseUp => onUp s
  end.

Definition run (events : list Event) (s : State) : State :=
  fold_left step events s.

End Resizer.

(** ** The vocabulary of the properties *)

(** A state in the middle of a run: node [A] is active and one step of
    the previous thread is on display. *)
Definition running_state : Threads.State :=
  {| Threads.nodes := []; Threads.edges := [];
     Threads.messages := [Threads.userStep "question"];
     Threads.currentThreadId := "debug-1";
     Threads.isStateful := VBool true;
     Threads.activeNode := VString "A";
     Threads.requests := [] |}.

(** [grows s s']: [s'] is [s] with steps appended and possibly another
    active node; no step of [s] is gone or changed and no request has
    been made. *)
Definition grows (s s' : Threads.State) : Prop :=
  Threads.nodes s' = Threads.nodes s
  /\ Threads.edges s' = Threads.edges s
  /\ Threads.currentThreadId s' = Threads.currentThreadId s
  /\ Threads.isStateful s' = Threads.isStateful s
  /\ Threads.requests s' = Threads.requests s
  /\ exists more, Threads.messages s' = Threads.messages s ++ more.

(** The response breaks: [fetch] rejects, or a read of the body does. *)
Definition breaks (o : Outcome) : Prop :=
  match o with
  | Rejected => True
  | Resolved body => failed body = true
  end.

(** The chunks that arrived before the response broke or ended. *)
Definition arrived (o : Outcome) : list string :=
  match o with
  | Rejected => []
  | Resolved body => chunks body
  end.

Definition is_nullish (v : value) : bool :=
  match v with
  | VUndefined | VNull => true
  | _ => false
  end.

(** The first element of the array is [null]: the one case in which the
    test of the view reads a property of [null]. *)
Definition null_head (v : value) : bool :=
  match v with
  | VArray (first :: _) => is_nullish first
  | _ => false
  end.

(** The test that the view makes: a non-empty array whose first element
    has a truthy [content] or a truthy [kwargs]. *)
Definition message_list (v : value) : Prop :=
  exists first rest,
    v = VArray (first :: rest)
    /\ (truthy (get_opt first "content") = true
        \/ truthy (get_opt first "kwargs") = true).

(** A graph with one node whose id is the number 1, in list form. *)
Definition numeric_id_graph : value :=
  VObject [("nodes", VArray [VObject [("id", VNumber 1)]]);
           ("edges", VArray [])].

(** A graph with one node, [A], and one edge from [A] to a node [Z] that
    does not exist. *)
Definition dangling_edge_graph : value :=
  VObject [("nodes", VArray [VObject [("id", VString "A")]]);
           ("edges", VArray [VObject [("source", VString "A");
                                      ("target", VString "Z")]])].

(** The line of a frame: the tag and the body. *)
Definition tagged (body : string) : string := "data: " +:+ body.

(** A frame as the server writes it: the tag, the body, a blank line. *)
Definition frame (body : string) : string := tagged body +:+ blank_line.

(** A stream that breaks after a first frame. *)
Definition broken_stream : Outcome :=
  Resolved {| chunks := [frame (node_frame "A" "hello")]; failed := true |}.

(** A chunk that holds whole frames only. *)
Fixpoint wire (bodies : list string) : string :=
  match bodies with
  | [] => ""
  | b :: bs => frame b +:+ wire bs
  end.

(** No line feed occurs in the string. *)
Fixpoint no_LF (s : string) : bool :=
  match s with
  | EmptyString => true
  | String c s' => negb (Ascii.eqb c LF) && no_LF s'
  end.

(** The bodies of the frames [{node:"A",content:"..."}],
    [{node:"A",content:"hello"}] and [{done:true}]. *)
Definition scenario : list string :=
  [node_frame "A" "..."; node_frame "A" "hello"; done_frame].

(** The first eight characters of a frame body: [{"node":] *)
Definition truncated : string := String.substring 0 8 (node_frame "B" "two").

(** A chunk with a truncated frame between two whole ones. *)
Definition corrupt_chunk : string :=
  wire [node_frame "A" "one"; truncated; node_frame "B" "two"].

(** The ids of the nodes given to React Flow, as strings. *)
Definition node_ids (ns : list FlowNode) : list string :=
  map (fun n => ToString (node_id n)) ns.

(** A graph in mapping form with the nodes [A] and [B], an edge from [A]
    to [B] and an edge from [A] to the unknown id [Z]. *)
Definition two_node_graph : value :=
  VObject [("nodes", VObject [("A", VObject []); ("B", VObject [])]);
           ("edges", VArray [VObject [("source", VString "A");
                                      ("target", VString "B")];
                             VObject [("source", VString "A");
                                      ("target", VString "Z")]]);
           ("isStateful", VBool false)].








(** A step that the stream decoder of the thread-aware console may
    append: a step of a node with a truthy content other than the
    sentinel. *)
Definition emitted (step : value) : Prop :=
  exists node content,
    step = Threads.assistantStep node content
    /\ truthy content = true
    /\ content <> VString "...".

(** Some line of the chunk contains the letters [done]. *)
Definition mentions_done (chunk : string) : bool :=
  existsb (includes "done") (split_blank_line chunk).

(** The node of the last of the messages [more], or [before] when there
    is none. *)
Definition shown_node (before : value) (more : list value) : value :=
  fold_left (fun _ m => get_opt m "node") more before.

(** [extends s s']: [s'] is [s] with messages appended and possibly
    another active node; no message of [s] is gone or changed and no
    request has been made. *)
Definition extends (s s' : AppJsx.State) : Prop :=
  AppJsx.nodes s' = AppJsx.nodes s
  /\ AppJsx.edges s' = AppJsx.edges s
  /\ AppJsx.input s' = AppJsx.input s
  /\ AppJsx.requests s' = AppJsx.requests s
  /\ exists more, AppJsx.messages s' = AppJsx.messages s ++ more.

(** [a] comes before [b] in the list. *)
Definition precedes {A} (a b : A) (l : list A) : Prop :=
  exists l1 l2 l3, l = l1 ++ a :: l2 ++ b :: l3.

(** The requests among the calls, in the order of the calls. *)
Definition Threads_fetches (calls : list Threads.Call) : list Threads.Request :=
  flat_map (fun c => match c with
                     | Threads.Fetch r => [r]
                     | _ => []
                     end) calls.

Definition AppJsx_fetches (calls : list AppJsx.Call) : list AppJsx.Request :=
  flat_map (fun c => match c with
                     | AppJsx.Fetch r => [r]
                     | _ => []
                     end) calls.

(** The stream of the sentinel scenario in two chunks, the second frame
    cut after its first twenty characters. *)
Definition cut_scenario : list string :=
  [frame (node_frame "A" "...")
   +:+ String.substring 0 20 (frame (node_frame "A" "hello"));
   drop 20 (frame (node_frame "A" "hello")) +:+ frame done_frame].

(** A state of [src/App.jsx] in which [text] has been typed. *)
Definition typed (text : string) : AppJsx.State :=
  {| AppJsx.nodes := []; AppJsx.edges := []; AppJsx.messages := [];
     AppJsx.activeNode := VNull; AppJsx.input := text;
     AppJsx.requests := [] |}.

(** The no-break space, U+00A0. *)
Definition NBSP : string :=
  String (ascii_of_nat 194) (String (ascii_of_nat 160) EmptyString).

(** The event is a move of the mouse. *)
Definition is_move (e : Resizer.Event) : Prop :=
  match e with
  | Resizer.MouseMove _ _ _ => True
  | _ => False
  end.

(** The name that the header of a step shows before it is put in upper
    case. *)
Definition header_name (node : value) : string :=
  match node with
  | VString name => if name =? "" then "SYSTEM" else name
  | _ => "SYSTEM"
  end.

(** An update that the view can show: its first element is not [null]
    and, if it is taken for a message list, none of its items is. *)
Definition view_ok (v : value) : Prop :=
  null_head v = false
  /\ (message_list v ->
      forall items, v = VArray items ->
                    Forall (fun m => is_nullish m = false) items).

(** The updates of a step as the view lists them:
    [Object.entries(step.updates || {})]. *)
Definition updates_of (step : value) : list (string * value) :=
  own_entries (or_else (get_opt step "updates") (VObject [])).

(** * Properties *)

(** ** Threads: selecting a thread *)

(** [loadThread] writes the thread id and the steps and nothing else. *)
Lemma loadThread_fields (id : string) (history : list value) (s : Threads.State) :
  Threads.nodes (Threads.loadThread id (Some history) s) = Threads.nodes s
  /\ Threads.edges (Threads.loadThread id (Some history) s) = Threads.edges s
  /\ Threads.isStateful (Threads.loadThread id (Some history) s)
     = Threads.isStateful s
  /\ Threads.requests (Threads.loadThread id (Some history) s)
     = Threads.requests s.
Proof. repeat split. Qed.

(** C6, as amended: for every thread id and every history result,
    [loadThread id] sets [currentThreadId] to [id] and replaces the steps
    wholesale with the fetched history, whatever the steps were before;
    the active node is left as it was. *)
Theorem loadThread_replaces_steps (id : string) (history : list value)
  (s : Threads.State) :
  let s' := Threads.loadThread id (Some history) s in
  Threads.currentThreadId s' = id
  /\ Threads.messages s' = history
  /\ Threads.activeNode s' = Threads.activeNode s.
Proof. repeat split. Qed.

(** C6 fails as stated: selecting a thread while node [A] is active
    replaces the steps by the history [[s1; s2]] but leaves [A] active. *)
Lemma loadThread_keeps_active_node :
  let s1 := Threads.assistantStep (VString "A") (VString "one") in
  let s2 := Threads.assistantStep (VString "B") (VString "two") in
  let s' := Threads.loadThread "t1" (Some [s1; s2]) running_state in
  Threads.messages s' = [s1; s2]
  /\ Threads.activeNode s' = VString "A"
  /\ Threads.activeNode s' <> VNull.
Proof. repeat split. discriminate. Qed.

(** ** Handlers in general *)

Section ForEach.
Context {S A : Type}.
Variable f : A -> @M S unit.
Hypothesis f_ok : forall a s, snd (f a s) = Ok tt.

Lemma forEach_ok (l : list A) (s : S) : snd (forEach f l s) = Ok tt.
Proof using f_ok.
  revert s. induction l as [|a l IH]; intros s; simpl; [reflexivity|].
  unfold bind. specialize (f_ok a s).
  destruct (f a s) as [s' r]. simpl in f_ok. subst r. apply IH.
Qed.

Lemma forEach_cons (a : A) (l : list A) (s : S) :
  forEach f (a :: l) s = forEach f l (fst (f a s)).
Proof using f_ok.
  simpl. unfold bind. specialize (f_ok a s).
  destruct (f a s) as [s' r]. simpl in *. subst r. reflexivity.
Qed.

Lemma forEach_app (l1 l2 : list A) (s : S) :
  forEach f (l1 ++ l2) s = forEach f l2 (fst (forEach f l1 s)).
Proof using f_ok.
  revert s. induction l1 as [|a l1 IH]; intros s.
  - reflexivity.
  - rewrite <- app_comm_cons, !forEach_cons. apply IH.
Qed.

(** A property of the state that every call of the callback preserves
    is preserved by the iteration. *)
Lemma forEach_preserves (R : S -> S -> Prop) :
  (forall s, R s s) ->
  (forall s1 s2 s3, R s1 s2 -> R s2 s3 -> R s1 s3) ->
  (forall a s, R s (fst (f a s))) ->
  forall l s, R s (fst (forEach f l s)).
Proof using f_ok.
  intros Hrefl Htrans Hstep l.
  induction l as [|a l IH]; intros s.
  - apply Hrefl.
  - rewrite forEach_cons. eapply Htrans; [apply Hstep | apply IH].
Qed.

End ForEach.

(** ** Threads: decoding a stream *)

Lemma grows_refl (s : Threads.State) : grows s s.
Proof.
  repeat split. exists []. symmetry. apply app_nil_r.
Qed.

Lemma grows_trans (s1 s2 s3 : Threads.State) :
  grows s1 s2 -> grows s2 s3 -> grows s1 s3.
Proof.
  intros (Hn & He & Ht & Hs & Hr & m1 & Hm1) (Hn' & He' & Ht' & Hs' & Hr' & m2 & Hm2).
  repeat split; try congruence.
  exists (m1 ++ m2). rewrite Hm2, Hm1. symmetry. apply app_assoc.
Qed.

Section ThreadsDecoder.
Variable parse : string -> result value.

(** The callback of the stream loop never throws. *)
Lemma Threads_onLine_ok (line : string) (s : Threads.State) :
  snd (Threads.onLine parse line s) = Ok tt.
Proof.
  unfold Threads.onLine. destruct (negb (String.prefix "data: " line)); reflexivity.
Qed.

(** A line without the [data: ] tag and a line whose body is not JSON
    leave the state as it is. *)
Lemma Threads_onLine_untagged (line : string) (s : Threads.State) :
  String.prefix "data: " line = false ->
  Threads.onLine parse line s = (s, Ok tt).
Proof. intros H. unfold Threads.onLine. rewrite H. reflexivity. Qed.

Lemma Threads_onLine_unparseable (line : string) (e : exn) (s : Threads.State) :
  parse (replace "data: " "" line) = Throw e ->
  Threads.onLine parse line s = (s, Ok tt).
Proof.
  intros H. unfold Threads.onLine.
  destruct (negb (String.prefix "data: " line)); [reflexivity|].
  unfold try_catch, Threads.decodeFrame, bind, lift. rewrite H. reflexivity.
Qed.

Lemma Threads_onLine_grows (line : string) (s : Threads.State) :
  grows s (fst (Threads.onLine parse line s)).
Proof.
  unfold Threads.onLine.
  destruct (negb (String.prefix "data: " line)); [apply grows_refl|].
  unfold try_catch, Threads.decodeFrame, bind, lift, update, ret.
  destruct (parse _) as [data|e]; [|apply grows_refl].
  destruct (get data "node") as [node|e]; [|apply grows_refl].
  assert (Hact : forall v, grows s (Threads.setActiveNode v s)).
  { intros v. repeat split. exists []. symmetry. apply app_nil_r. }
  assert (Hmsg : forall s0 x, grows s0 (Threads.setMessages (fun p => p ++ [x]) s0)).
  { intros s0 x. repeat split. exists [x]. reflexivity. }
  destruct (truthy node); simpl;
    destruct (get data "content") as [content|e]; simpl;
    try destruct (truthy content && negb (Threads.is_sentinel content)); simpl;
    eauto using grows_refl, grows_trans.
Qed.

Lemma Threads_onChunk_ok (chunk : string) (s : Threads.State) :
  snd (Threads.onChunk parse chunk s) = Ok tt.
Proof. apply forEach_ok, Threads_onLine_ok. Qed.

Lemma Threads_onChunk_grows (chunk : string) (s : Threads.State) :
  grows s (fst (Threads.onChunk parse chunk s)).
Proof.
  unfold Threads.onChunk.
  apply (forEach_preserves (Threads.onLine parse) Threads_onLine_ok grows);
    auto using grows_refl, Threads_onLine_grows.
  apply grows_trans.
Qed.

(** The loop ends in the state that the chunks lead to, whether the
    stream is closed or breaks; it throws exactly when the stream
    breaks. *)
Lemma Threads_readAll_state (cs : list string) (fails : bool) (s : Threads.State) :
  fst (Threads.readAll parse cs fails s) = fst (Threads.readAll parse cs false s)
  /\ snd (Threads.readAll parse cs fails s)
     = (if fails then Throw NetworkError else Ok tt).
Proof.
  revert s. induction cs as [|c cs IH]; intros s; simpl.
  - destruct fails; split; reflexivity.
  - unfold bind. pose proof (Threads_onChunk_ok c s) as Hok.
    destruct (Threads.onChunk parse c s) as [s' r]. simpl in Hok. subst r.
    apply IH.
Qed.

Lemma Threads_readAll_grows (cs : list string) (fails : bool) (s : Threads.State) :
  grows s (fst (Threads.readAll parse cs fails s)).
Proof.
  revert s. induction cs as [|c cs IH]; intros s; simpl.
  - destruct fails; apply grows_refl.
  - unfold bind. pose proof (Threads_onChunk_ok c s) as Hok.
    pose proof (Threads_onChunk_grows c s) as Hg.
    destruct (Threads.onChunk parse c s) as [s' r]. simpl in *. subst r.
    eapply grows_trans; [exact Hg | apply IH].
Qed.

End ThreadsDecoder.

(** ** Threads: a run that fails *)

Lemma Threads_onRun_begin_spec (val : string) (s : Threads.State) :
  val <> "" ->
  let r := {| Threads.req_input := val;
              Threads.req_threadId := Threads.currentThreadId s |} in
  exists s1,
    Threads.onRun_begin val s = Some (s1, r)
    /\ Threads.messages s1 = Threads.messages s ++ [Threads.userStep val]
    /\ Threads.requests s1 = Threads.requests s ++ [r]
    /\ Threads.activeNode s1 = Threads.activeNode s.
Proof.
  intros Hval r. unfold Threads.onRun_begin.
  destruct (String.eqb_spec val "") as [->|_]; [contradiction|].
  eexists. split; [reflexivity|]. repeat split.
Qed.

(** ** Threads: the payload view *)

Lemma get_defined (v : value) (k : string) :
  is_nullish v = false -> get v k = Ok (get_opt v k).
Proof.
  intros H. unfold get_opt.
  destruct v; try discriminate; unfold get;
    repeat (case_match; try reflexivity).
Qed.

Lemma isMessageList_spec (v : value) :
  null_head v = false ->
  exists b, Threads.isMessageList v = Ok b /\ (truthy b = true <-> message_list v).
Proof.
  intros Hhead. destruct v as [| |b|n|s|items|props];
    try (exists (VBool false); split; [reflexivity|];
         split; [discriminate | intros (f & r & H & _); discriminate]).
  destruct items as [|first rest].
  - exists (VBool false). split; [reflexivity|].
    split; [discriminate | intros (f & r & H & _); discriminate].
  - simpl in Hhead. unfold Threads.isMessageList.
    rewrite (get_defined first "content" Hhead),
            (get_defined first "kwargs" Hhead). simpl.
    destruct (truthy (get_opt first "content")) eqn:Hc.
    + eexists. split; [reflexivity|]. split; [|intros _; exact Hc].
      intros _. exists first, rest. auto.
    + eexists. split; [reflexivity|]. split.
      * intros Hk. exists first, rest. auto.
      * intros (f & r & Heq & [H|H]); injection Heq as <- <-; congruence.
Qed.

(** C2, as amended: classification gives exactly one shape, and no
    error, for every value except an array whose first element is
    [null]. The shape is MessageSequence iff the value is a non-empty
    array whose first element has a truthy [content] or a truthy
    [kwargs]; otherwise PlainText iff it is a string; otherwise
    StructuredData. [[{content:"hi"}]] is a MessageSequence, ["hi"] is
    PlainText, [{"a":1}] and [[]] are StructuredData. *)
Theorem classify_total (v : value) :
  null_head v = false ->
  (exists shape,
     Threads.classify v = Ok shape
     /\ (shape = Threads.MessageSequence <-> message_list v)
     /\ (shape = Threads.PlainText <->
          ~ message_list v /\ exists s, v = VString s)
     /\ (shape = Threads.StructuredData <->
          ~ message_list v /\ ~ exists s, v = VString s))
  /\ Threads.classify (VArray [VObject [("content", VString "hi")]])
     = Ok Threads.MessageSequence
  /\ Threads.classify (VString "hi") = Ok Threads.PlainText
  /\ Threads.classify (VObject [("a", VNumber 1)]) = Ok Threads.StructuredData
  /\ Threads.classify (VArray []) = Ok Threads.StructuredData.
Proof.
  intros Hhead. split; [|repeat split].
  destruct (isMessageList_spec v Hhead) as (b & Hb & Hiff).
  unfold Threads.classify. rewrite Hb. simpl.
  destruct (truthy b) eqn:Htruthy.
  - exists Threads.MessageSequence. split; [reflexivity|].
    assert (message_list v) by (apply Hiff; reflexivity).
    repeat split; try discriminate; try tauto.
    all: intros [Hn _]; contradiction.
  - assert (Hnot : ~ message_list v).
    { intros H. apply Hiff in H. discriminate. }
    destruct v; simpl;
      (eexists; split; [reflexivity|]);
      repeat split; try discriminate; try tauto; eauto;
      try (intros [_ [s0 Hs]]; discriminate);
      try (intros [s0 Hs]; discriminate);
      try (intros [_ Hs]; exfalso; apply Hs; eauto).
Qed.

Lemma classify_total_witness :
  null_head (VArray [VObject [("kwargs", VObject [])]]) = false
  /\ exists shape,
       Threads.classify (VArray [VObject [("kwargs", VObject [])]]) = Ok shape
       /\ (shape = Threads.MessageSequence <->
            message_list (VArray [VObject [("kwargs", VObject [])]])).
Proof.
  split; [reflexivity|].
  destruct (classify_total (VArray [VObject [("kwargs", VObject [])]]) eq_refl)
    as [(shape & Hshape & Hiff & _) _].
  exists shape. split; assumption.
Defined.

(** C2 fails as stated: the first element of [[{kwargs: {}}]] exposes
    neither [content] nor [kwargs.content], so the rule of the
    specification makes the value StructuredData, while the view treats
    it as a MessageSequence; and the first element of [[{content: ""}]]
    exposes [content], while the view treats the value as
    StructuredData. *)
Lemma classify_differs_from_spec :
  let v1 := VArray [VObject [("kwargs", VObject [])]] in
  let v2 := VArray [VObject [("content", VString "")]] in
  Threads.classify v1 = Ok Threads.MessageSequence
  /\ Spec.classify v1 = Threads.StructuredData
  /\ Threads.classify v2 = Ok Threads.StructuredData
  /\ Spec.classify v2 = Threads.MessageSequence.
Proof. repeat split. Qed.

(** An item is rendered as the first truthy one of its [content], the
    [content] of its [kwargs], and the empty string. *)
Lemma messageText_defined (m : value) :
  is_nullish m = false ->
  Threads.messageText m
  = Ok (or_else (get_opt m "content")
          (or_else (get_opt (get_opt m "kwargs") "content") (VString ""))).
Proof.
  intros H. unfold Threads.messageText.
  rewrite (get_defined m "content" H), (get_defined m "kwargs" H). simpl.
  unfold or_else. destruct (truthy (get_opt m "content")); reflexivity.
Qed.

(** C9, as amended: for every sequence whose items are not [null], the
    view shows one text per item and does not throw, whichever fields an
    item lacks; the text of an item is its [content] when that is truthy
    (in particular not the empty string), else the [content] of its
    [kwargs] when that is truthy, else the empty text. *)
Theorem messageText_fallback (items : list value) :
  Forall (fun m => is_nullish m = false) items ->
  exists texts,
    mapM Threads.messageText items = Ok texts
    /\ Forall2
         (fun m text =>
            let content := get_opt m "content" in
            let inner := get_opt (get_opt m "kwargs") "content" in
            (truthy content = true -> text = content)
            /\ (truthy content = false -> truthy inner = true -> text = inner)
            /\ (truthy content = false -> truthy inner = false ->
                text = VString ""))
         items texts.
Proof.
  induction 1 as [|m items Hm _ (texts & Htexts & Hall)].
  - exists []. split; [reflexivity | constructor].
  - eexists. simpl. rewrite (messageText_defined m Hm), Htexts.
    split; [reflexivity|]. constructor; [|exact Hall].
    unfold or_else.
    destruct (truthy (get_opt m "content"));
      destruct (truthy (get_opt (get_opt m "kwargs") "content"));
      repeat split; intros; congruence.
Qed.

Lemma messageText_fallback_witness :
  Forall (fun m => is_nullish m = false)
    [VObject [("kwargs", VObject [("content", VString "hi")])]; VObject []]
  /\ exists texts,
       mapM Threads.messageText
         [VObject [("kwargs", VObject [("content", VString "hi")])]; VObject []]
       = Ok texts.
Proof.
  assert (H : Forall (fun m => is_nullish m = false)
                [VObject [("kwargs", VObject [("content", VString "hi")])];
                 VObject []])
    by (repeat constructor).
  split; [exact H|].
  destruct (messageText_fallback _ H) as (texts & Htexts & _).
  exists texts. exact Htexts.
Defined.

(** C9 fails as stated: the item [{content: "", kwargs: {content: "x"}}]
    has a [content] field, the empty string, and the view shows ["x"]. *)
Lemma messageText_skips_empty_content :
  let m := VObject [("content", VString "");
                    ("kwargs", VObject [("content", VString "x")])] in
  Spec.messageText m = VString ""
  /\ Threads.messageText m = Ok (VString "x")
  /\ Threads.messageText m <> Ok (Spec.messageText m).
Proof. repeat split. discriminate. Qed.

(** ** AppJsx: frames that mention completion *)

(** C3: the frame [data: {"writer":"all done"}] is well-formed and does
    not signal completion, it reports the text [all done] for the node
    [writer]; [onLine] treats it as the completion signal all the same,
    because the line contains the letters [done]: the active node is
    cleared and no message is appended. The same frame with the text
    [all set] is decoded. *)
Theorem onLine_takes_done_in_text_for_completion :
  let mentions := "data: " +:+ keyed_frame "writer" "all done" in
  let other := "data: " +:+ keyed_frame "writer" "all set" in
  JSON.parse (replace "data: " "" mentions)
  = Ok (VObject [("writer", VString "all done")])
  /\ (forall s, AppJsx.onLine JSON.parse mentions s
                = (AppJsx.setActiveNode VNull s, Ok tt))
  /\ (forall s, AppJsx.onLine JSON.parse other s
                = (AppJsx.setMessages
                     (fun p => p ++ [AppJsx.assistantMessage (VString "writer")
                                       (VString "all set")])
                     (AppJsx.setActiveNode (VString "writer") s), Ok tt)).
Proof. repeat split. Qed.

(** Whatever the parser, a tagged line that contains [done] clears the
    active node and is not decoded. *)
Lemma AppJsx_onLine_done (parse : string -> result value) (line : string)
  (s : AppJsx.State) :
  String.prefix "data: " line = true ->
  includes "done" line = true ->
  AppJsx.onLine parse line s = (AppJsx.setActiveNode VNull s, Ok tt).
Proof. intros H1 H2. unfold AppJsx.onLine. rewrite H1, H2. reflexivity. Qed.

(** ** The graph loader *)

(** C8: on a graph whose one node has the number 1 as its id, both
    loaders register the node for the layout under the string ["1"] and
    then throw a TypeError, at [n.id.includes('__')]; no node and no edge
    is handed to React Flow. *)
Theorem graph_loader_throws_on_numeric_id :
  (exists raw g,
     AppJsx.rawNodes numeric_id_graph = Ok raw
     /\ AppJsx.addNodes raw Graphlib.empty = Ok g
     /\ Graphlib.hasNode g "1" = true)
  /\ AppJsx.graphModel numeric_id_graph = Throw TypeError
  /\ (forall s, AppJsx.onGraph numeric_id_graph s = (s, Throw TypeError))
  /\ Threads.graphModel numeric_id_graph = Throw TypeError
  /\ (forall s, Threads.nodes (fst (Threads.onGraph numeric_id_graph s))
                = Threads.nodes s
                /\ snd (Threads.onGraph numeric_id_graph s) = Throw TypeError).
Proof.
  split.
  { eexists. eexists. split; [reflexivity|]. split; [reflexivity|].
    vm_compute. reflexivity. }
  assert (H1 : AppJsx.graphModel numeric_id_graph = Throw TypeError)
    by (vm_compute; reflexivity).
  assert (H2 : Threads.graphModel numeric_id_graph = Throw TypeError)
    by (vm_compute; reflexivity).
  split; [exact H1|]. split.
  { intros s. vm_compute. reflexivity. }
  split; [exact H2|].
  intros s. split; vm_compute; reflexivity.
Qed.

(** C1: on a graph with the node [A] and an edge from [A] to the unknown
    id [Z], the loader of [src/App.jsx] keeps the edge out of the graph it
    lays out but hands it to React Flow: the rendered edge list holds an
    edge whose target is not the id of a node. The loader of the
    thread-aware console drops the edge from both. *)
Theorem AppJsx_renders_dangling_edge :
  (exists ns es g,
     AppJsx.graphModel dangling_edge_graph = Ok (ns, es, g)
     /\ map node_id ns = [VString "A"]
     /\ es = [{| edge_id := "edge-0"; edge_source := "A"; edge_target := "Z" |}]
     /\ ~ In (VString "Z") (map node_id ns)
     /\ elements (Graphlib._edgeObjs g) = [])
  /\ (exists ns g,
        Threads.graphModel dangling_edge_graph = Ok (ns, [], g)
        /\ map node_id ns = [VString "A"]
        /\ elements (Graphlib._edgeObjs g) = []).
Proof.
  split.
  - eexists. eexists. eexists. split; [vm_compute; reflexivity|].
    split; [reflexivity|]. split; [reflexivity|]. split.
    + simpl. intros [H|[]]. discriminate.
    + vm_compute. reflexivity.
  - eexists. eexists. split; [vm_compute; reflexivity|].
    split; [reflexivity|]. vm_compute. reflexivity.
Qed.

(** ** Frames on the wire *)

Lemma append_cons (c : ascii) (s t : string) :
  String c s +:+ t = String c (s +:+ t).
Proof. reflexivity. Qed.

Lemma append_assoc (s t u : string) : (s +:+ t) +:+ u = s +:+ t +:+ u.
Proof.
  induction s as [|c s IH]; [reflexivity|].
  rewrite !append_cons, IH. reflexivity.
Qed.

(** A line without line feeds, followed by a blank line, is the first
    piece of the split. *)
Lemma split_blank_line_frame (l rest : string) :
  no_LF l = true ->
  split_blank_line (l +:+ blank_line +:+ rest) = l :: split_blank_line rest.
Proof.
  induction l as [|c l IH]; intros Hl.
  - reflexivity.
  - simpl in Hl. apply andb_prop in Hl as [Hc Hl].
    apply negb_true_iff in Hc. specialize (IH Hl).
    rewrite append_cons.
    change (split_blank_line (String c (l +:+ blank_line +:+ rest)))
      with (match l +:+ blank_line +:+ rest with
            | String c' s'' =>
                if Ascii.eqb c LF && Ascii.eqb c' LF
                then EmptyString :: split_blank_line s''
                else cons_head c (split_blank_line (l +:+ blank_line +:+ rest))
            | EmptyString =>
                cons_head c (split_blank_line (l +:+ blank_line +:+ rest))
            end).
    rewrite Hc, IH. simpl.
    destruct (l +:+ blank_line +:+ rest); reflexivity.
Qed.

Lemma no_LF_tagged (body : string) : no_LF body = true -> no_LF (tagged body) = true.
Proof. intros H. exact H. Qed.

Lemma split_blank_line_wire (bodies : list string) :
  Forall (fun b => no_LF b = true) bodies ->
  split_blank_line (wire bodies) = map tagged bodies ++ [""].
Proof.
  induction 1 as [|b bs Hb _ IH]; [reflexivity|].
  change (wire (b :: bs)) with ((tagged b +:+ blank_line) +:+ wire bs).
  rewrite append_assoc.
  rewrite split_blank_line_frame by (apply no_LF_tagged, Hb).
  rewrite IH. reflexivity.
Qed.

Lemma Forall_concat_inv {A} (P : A -> Prop) (ls : list (list A)) :
  Forall P (concat ls) -> Forall (Forall P) ls.
Proof.
  induction ls as [|l ls IH]; intros H; [constructor|].
  simpl in H. apply Forall_app in H as [Hl Hls]. constructor; auto.
Qed.

Section ThreadsFrames.
Variable parse : string -> result value.

(** A chunk of whole frames is decoded frame by frame. *)
Lemma Threads_onChunk_wire (bodies : list string) (s : Threads.State) :
  Forall (fun b => no_LF b = true) bodies ->
  Threads.onChunk parse (wire bodies) s
  = forEach (Threads.onLine parse) (map tagged bodies) s.
Proof.
  intros H. unfold Threads.onChunk. rewrite (split_blank_line_wire bodies H).
  rewrite (forEach_app _ (Threads_onLine_ok parse)). simpl.
  pose proof (forEach_ok _ (Threads_onLine_ok parse) (map tagged bodies) s) as Hok.
  destruct (forEach (Threads.onLine parse) (map tagged bodies) s) as [s' r].
  simpl in *. subst r. reflexivity.
Qed.

(** When every chunk holds whole frames, the stream is decoded frame by
    frame, wherever the chunks are cut. *)
Lemma Threads_readAll_wire (groups : list (list string)) (s : Threads.State) :
  Forall (Forall (fun b => no_LF b = true)) groups ->
  Threads.readAll parse (map wire groups) false s
  = forEach (Threads.onLine parse) (map tagged (concat groups)) s.
Proof.
  intros H. revert s. induction H as [|g groups Hg _ IH]; intros s.
  - reflexivity.
  - simpl. rewrite map_app, (forEach_app _ (Threads_onLine_ok parse)).
    unfold bind. rewrite (Threads_onChunk_wire g s Hg).
    pose proof (forEach_ok _ (Threads_onLine_ok parse) (map tagged g) s) as Hok.
    destruct (forEach (Threads.onLine parse) (map tagged g) s) as [s' r].
    simpl in *. subst r. apply IH.
Qed.

End ThreadsFrames.

(** ** Threads: the sentinel scenario *)

Lemma scenario_decoded (s : Threads.State) :
  forEach (Threads.onLine JSON.parse) (map tagged scenario) s
  = (Threads.setMessages
       (fun p => p ++ [Threads.assistantStep (VString "A") (VString "hello")])
       (Threads.setActiveNode (VString "A") s), Ok tt).
Proof. vm_compute. reflexivity. Qed.

(** C4, as amended: in the thread-aware console, for a stream whose frames
    are, in order, [{node:"A",content:"..."}], [{node:"A",content:"hello"}]
    and [{done:true}], each frame whole in a chunk, however the frames are
    grouped into chunks, [onRun] appends, after the step of the user,
    exactly one step, the one for [hello], and the active node is none
    after the stream has ended. *)
Theorem sentinel_frame_is_suppressed (groups : list (list string))
  (val : string) (s : Threads.State) :
  val <> "" ->
  concat groups = scenario ->
  let stream := Resolved {| chunks := map wire groups; failed := false |} in
  let run := Threads.onRun JSON.parse val (fun _ => stream) s in
  snd run = Ok tt
  /\ Threads.messages (fst run)
     = Threads.messages s
       ++ [Threads.userStep val;
           Threads.assistantStep (VString "A") (VString "hello")]
  /\ Threads.activeNode (fst run) = VNull.
Proof.
  intros Hval Hgroups stream run.
  assert (Hclean : Forall (Forall (fun b => no_LF b = true)) groups).
  { apply Forall_concat_inv. rewrite Hgroups. repeat constructor. }
  destruct (Threads_onRun_begin_spec val s Hval) as (s1 & Hbegin & Hmsg & _ & _).
  subst run. unfold Threads.onRun. rewrite Hbegin.
  unfold stream, Threads.onRun_resume, bind. simpl chunks. simpl failed.
  rewrite (Threads_readAll_wire JSON.parse groups s1 Hclean), Hgroups.
  rewrite scenario_decoded. simpl.
  repeat split. rewrite Hmsg, <- app_assoc. reflexivity.
Qed.

Lemma sentinel_frame_is_suppressed_witness :
  "hi" <> ""
  /\ concat [[nth 0 scenario ""]; [nth 1 scenario ""; nth 2 scenario ""]]
     = scenario
  /\ Threads.activeNode
       (fst (Threads.onRun JSON.parse "hi"
               (fun _ => Resolved
                  {| chunks := map wire [[nth 0 scenario ""];
                                         [nth 1 scenario ""; nth 2 scenario ""]];
                     failed := false |})
               running_state))
     = VNull.
Proof.
  split; [discriminate|]. split; [reflexivity|].
  apply (sentinel_frame_is_suppressed
           [[nth 0 scenario ""]; [nth 1 scenario ""; nth 2 scenario ""]]
           "hi" running_state).
  - discriminate.
  - reflexivity.
Defined.

(** C4 fails as stated, in two ways. [src/App.jsx] reads the three frames
    as [{<node>: <value>}]: it appends two messages, both under the node
    name [node] and with the content [A]. And in the thread-aware console
    the same stream, cut into two chunks in the middle of the second
    frame, appends no step besides the step of the user. *)
Lemma sentinel_scenario_misread :
  AppJsx.messages
    (fst (AppJsx.handleSubmit JSON.parse
            (fun _ => Resolved {| chunks := [wire scenario]; failed := false |})
            (typed "hi")))
  = [AppJsx.userMessage "hi";
     AppJsx.assistantMessage (VString "node") (VString "A");
     AppJsx.assistantMessage (VString "node") (VString "A")]
  /\ fold_right String.append "" cut_scenario = wire scenario
  /\ Threads.messages
       (fst (Threads.onRun JSON.parse "hi"
               (fun _ => Resolved {| chunks := cut_scenario; failed := false |})
               running_state))
     = Threads.messages running_state ++ [Threads.userStep "hi"].
Proof. repeat split; vm_compute; reflexivity. Qed.

(** ** AppJsx: decoding a stream *)

Section AppJsxDecoder.
Variable parse : string -> result value.

Lemma AppJsx_onLine_ok (line : string) (s : AppJsx.State) :
  snd (AppJsx.onLine parse line s) = Ok tt.
Proof.
  unfold AppJsx.onLine.
  destruct (negb (String.prefix "data: " line)); [reflexivity|].
  destruct (includes "done" line); reflexivity.
Qed.

(** The messages that a line adds do not depend on the state. *)
Lemma AppJsx_onLine_emits (line : string) :
  exists more, forall s,
    AppJsx.messages (fst (AppJsx.onLine parse line s))
    = AppJsx.messages s ++ more.
Proof.
  unfold AppJsx.onLine.
  destruct (negb (String.prefix "data: " line));
    [exists []; intros s; symmetry; apply app_nil_r|].
  destruct (includes "done" line);
    [exists []; intros s; symmetry; apply app_nil_r|].
  unfold try_catch, AppJsx.decodeFrame, bind, lift, update.
  destruct (parse _) as [data|e];
    [|exists []; intros s; symmetry; apply app_nil_r].
  destruct (Object_keys data) as [keys|e];
    [|exists []; intros s; symmetry; apply app_nil_r].
  destruct (get data _) as [content|e].
  - eexists. intros s. reflexivity.
  - exists []. intros s. symmetry. apply app_nil_r.
Qed.

(** A line whose body is not JSON adds no message. *)
Lemma AppJsx_onLine_unparseable (line : string) (e : exn) (s : AppJsx.State) :
  parse (replace "data: " "" line) = Throw e ->
  AppJsx.messages (fst (AppJsx.onLine parse line s)) = AppJsx.messages s.
Proof.
  intros H. unfold AppJsx.onLine.
  destruct (negb (String.prefix "data: " line)); [reflexivity|].
  destruct (includes "done" line); [reflexivity|].
  unfold try_catch, AppJsx.decodeFrame, bind, lift. rewrite H. reflexivity.
Qed.

Lemma AppJsx_forEach_emits (lines : list string) :
  exists more, forall s,
    AppJsx.messages (fst (forEach (AppJsx.onLine parse) lines s))
    = AppJsx.messages s ++ more.
Proof.
  induction lines as [|l lines (more & IH)].
  - exists []. intros s. symmetry. apply app_nil_r.
  - destruct (AppJsx_onLine_emits l) as (m1 & H1).
    exists (m1 ++ more). intros s.
    rewrite (forEach_cons _ AppJsx_onLine_ok), IH, H1.
    symmetry. apply app_assoc.
Qed.

Lemma AppJsx_onChunk_ok (chunk : string) (s : AppJsx.State) :
  snd (AppJsx.onChunk parse chunk s) = Ok tt.
Proof. apply forEach_ok, AppJsx_onLine_ok. Qed.



End AppJsxDecoder.

(** ** Frames that are not JSON *)

(** C5: in every chunk, a frame whose body does not parse as JSON emits
    nothing and does not stop the decoding: the chunk is decoded as if
    the frame were not in it, so the frames after it are decoded and
    their steps appended in the order of arrival; and decoding a chunk
    never throws. This holds for the two consoles; in [src/App.jsx] the
    frame may still clear the active node. *)
Theorem unparseable_frame_is_skipped (parse : string -> result value)
  (chunk : string) (pre post : list string) (bad : string) (e : exn) :
  split_blank_line chunk = pre ++ bad :: post ->
  parse (replace "data: " "" bad) = Throw e ->
  (forall s, Threads.onChunk parse chunk s
             = forEach (Threads.onLine parse) (pre ++ post) s)
  /\ (forall s, snd (Threads.onChunk parse chunk s) = Ok tt)
  /\ (forall s, AppJsx.messages (fst (AppJsx.onChunk parse chunk s))
                = AppJsx.messages
                    (fst (forEach (AppJsx.onLine parse) (pre ++ post) s)))
  /\ (forall s, snd (AppJsx.onChunk parse chunk s) = Ok tt).
Proof.
  intros Hsplit Hbad. split; [|split; [|split]].
  - intros s. unfold Threads.onChunk. rewrite Hsplit.
    rewrite !(forEach_app _ (Threads_onLine_ok parse)).
    rewrite (forEach_cons _ (Threads_onLine_ok parse)).
    rewrite (Threads_onLine_unparseable parse bad e _ Hbad). reflexivity.
  - intros s. apply Threads_onChunk_ok.
  - intros s. unfold AppJsx.onChunk. rewrite Hsplit.
    rewrite !(forEach_app _ (AppJsx_onLine_ok parse)).
    rewrite (forEach_cons _ (AppJsx_onLine_ok parse)).
    destruct (AppJsx_forEach_emits parse post) as (more & Hmore).
    rewrite !Hmore. f_equal.
    apply (AppJsx_onLine_unparseable parse bad e _ Hbad).
  - intros s. apply AppJsx_onChunk_ok.
Qed.

Lemma unparseable_frame_is_skipped_witness :
  split_blank_line corrupt_chunk
  = [tagged (node_frame "A" "one")]
    ++ tagged truncated :: [tagged (node_frame "B" "two"); ""]
  /\ JSON.parse (replace "data: " "" (tagged truncated)) = Throw SyntaxError
  /\ Threads.messages (fst (Threads.onChunk JSON.parse corrupt_chunk running_state))
     = [Threads.userStep "question";
        Threads.assistantStep (VString "A") (VString "one");
        Threads.assistantStep (VString "B") (VString "two")].
Proof.
  assert (H1 : split_blank_line corrupt_chunk
               = [tagged (node_frame "A" "one")]
                 ++ tagged truncated :: [tagged (node_frame "B" "two"); ""])
    by (vm_compute; reflexivity).
  assert (H2 : JSON.parse (replace "data: " "" (tagged truncated))
               = Throw SyntaxError)
    by (vm_compute; reflexivity).
  split; [exact H1|]. split; [exact H2|].
  destruct (unparseable_frame_is_skipped JSON.parse corrupt_chunk _ _ _ _ H1 H2)
    as (Hskip & _).
  rewrite Hskip. vm_compute. reflexivity.
Defined.

(** ** Frames cut by a chunk boundary *)



(** ** Closed graphs *)

Lemma filterM_holds {A} (p : A -> result bool) (l kept : list A) :
  filterM p l = Ok kept -> Forall (fun a => p a = Ok true) kept.
Proof.
  revert kept. induction l as [|a l IH]; intros kept H; simpl in H.
  - injection H as <-. constructor.
  - destruct (p a) as [keep|] eqn:Hp; [|discriminate]. simpl in H.
    destruct (filterM p l) as [rest|]; [|discriminate]. simpl in H.
    injection H as <-. destruct keep; auto.
Qed.

Lemma mapM_Forall2 {A B} (f : A -> result B) (l : list A) (bs : list B) :
  mapM f l = Ok bs -> Forall2 (fun a b => f a = Ok b) l bs.
Proof.
  revert bs. induction l as [|a l IH]; intros bs H; simpl in H.
  - injection H as <-. constructor.
  - destruct (f a) as [b|] eqn:Hf; [|discriminate].
    destruct (mapM f l) as [bs'|]; [|discriminate].
    injection H as <-. constructor; auto.
Qed.

Lemma mapiM_Forall2 {A B} (f : A -> nat -> result B) (l : list A) (i : nat)
  (bs : list B) :
  mapiM_from i f l = Ok bs -> Forall2 (fun a b => exists j, f a j = Ok b) l bs.
Proof.
  revert i bs. induction l as [|a l IH]; intros i bs H; simpl in H.
  - injection H as <-. constructor.
  - destruct (f a i) as [b|] eqn:Hf; [|discriminate]. simpl in H.
    destruct (mapiM_from (S i) f l) as [bs'|] eqn:Hl; [|discriminate].
    injection H as <-. constructor; eauto.
Qed.

Lemma String_inv (v : value) (k : string) :
  String_ v = Ok k -> unprintable v = false /\ k = ToString v.
Proof.
  unfold String_. destruct (unprintable v); [discriminate|].
  intros H. injection H as <-. auto.
Qed.


Lemma hasNode_setNode (g : Graphlib.Graph) (v k : string) (l : Graphlib.label) :
  Graphlib.hasNode (Graphlib.setNode v l g) k = true
  <-> (v = k /\ v <> "__proto__") \/ Graphlib.hasNode g k = true.
Proof.
  unfold Graphlib.hasNode, Graphlib.setNode, Graphlib.assign. simpl.
  destruct (String.eqb_spec v "__proto__") as [Hp|Hp].
  - split; [auto|]. intros [[_ H]|H]; [contradiction|exact H].
  - destruct (decide (v = k)) as [->|Hne].
    + rewrite lookup_insert_eq. tauto.
    + rewrite lookup_insert_ne by assumption.
      destruct (Graphlib._nodes g !! k); split; auto.
      intros [[? _]|?]; congruence.
Qed.

(** The nodes of the graph that is laid out are the nodes of the
    description, under their ids as strings. *)
Lemma Threads_addNodes_hasNode (raw : list value) (g g' : Graphlib.Graph)
  (k : string) :
  Threads.addNodes raw g = Ok g' ->
  Graphlib.hasNode g' k = true ->
  Graphlib.hasNode g k = true
  \/ exists n id, In n raw /\ get n "id" = Ok id /\ ToString id = k.
Proof.
  unfold Threads.addNodes.
  revert g. induction raw as [|n raw IH]; intros g H Hk; simpl in H.
  - injection H as <-. auto.
  - destruct (get n "id") as [id|] eqn:Hid; [|discriminate]. simpl in H.
    destruct (String_ id) as [v|] eqn:Hv; [|discriminate]. simpl in H.
    apply String_inv in Hv as [_ ->].
    destruct (IH _ H Hk) as [Hg|(n' & id' & Hin & Hget & Hstr)].
    + apply hasNode_setNode in Hg as [[<- _]|Hg]; [|auto].
      right. exists n, id. simpl. auto.
    + right. exists n', id'. simpl. auto.
Qed.

Lemma Threads_flowNode_ids (raw : list value) (ns : list FlowNode)
  (n id : value) :
  mapM Threads.flowNode raw = Ok ns ->
  In n raw -> get n "id" = Ok id ->
  In (ToString id) (node_ids ns).
Proof.
  intros H%mapM_Forall2. induction H as [|n0 fn raw ns Hfn _ IH];
    intros Hin Hid; [contradiction|].
  destruct Hin as [->|Hin]; [|right; auto].
  left. unfold Threads.flowNode in Hfn. rewrite Hid in Hfn. simpl in Hfn.
  destruct (get n "name"); [|discriminate]. simpl in Hfn.
  destruct (String_ id); [|discriminate]. simpl in Hfn.
  destruct (call_includes id "__"); [|discriminate]. simpl in Hfn.
  injection Hfn as <-. reflexivity.
Qed.

(** X1: in the thread-aware console the edges given to React Flow form a
    closed graph: both ends of every edge are ids of nodes given to React
    Flow, for every graph description that the loader accepts. *)
Lemma Threads_graphModel_closed (data : value) (ns : list FlowNode)
  (es : list FlowEdge) (g : Graphlib.Graph) :
  Threads.graphModel data = Ok (ns, es, g) ->
  Forall (fun e => In (edge_source e) (node_ids ns)
                   /\ In (edge_target e) (node_ids ns)) es.
Proof.
  unfold Threads.graphModel. intros H.
  destruct (Threads.rawNodes data) as [raw|]; [|discriminate]. simpl in H.
  destruct (Threads.addNodes raw Graphlib.empty) as [g0|] eqn:Hg0;
    [|discriminate]. simpl in H.
  destruct (get data "edges") as [edges|]; [|discriminate]. simpl in H.
  destruct (as_array edges) as [items|]; [|discriminate]. simpl in H.
  destruct (filterM (Threads.isValidEdge g0) items) as [valid|] eqn:Hvalid;
    [|discriminate]. simpl in H.
  destruct (Threads.addEdges valid g0) as [g1|]; [|discriminate]. simpl in H.
  destruct (mapM Threads.flowNode raw) as [ns'|] eqn:Hns; [|discriminate].
  simpl in H.
  destruct (mapiM_from 0 Threads.flowEdge valid) as [fes|] eqn:Hfes;
    [|discriminate]. simpl in H.
  injection H as <- <- <-.
  apply filterM_holds in Hvalid. apply mapiM_Forall2 in Hfes.
  assert (Hnode : forall k, Graphlib.hasNode g0 k = true -> In k (node_ids ns')).
  { intros k Hk.
    destruct (Threads_addNodes_hasNode raw _ _ k Hg0 Hk)
      as [Hempty|(n & id & Hin & Hid & <-)].
    - discriminate.
    - eapply Threads_flowNode_ids; eassumption. }
  induction Hfes as [|e fe valid fes (j & Hfe) _ IH]; [constructor|].
  inversion Hvalid as [|? ? He Hrest]; subst.
  constructor; [|apply IH, Hrest].
  unfold Threads.isValidEdge in He. unfold Threads.flowEdge in Hfe.
  destruct (get e "source") as [src|]; [|discriminate]. simpl in He, Hfe.
  destruct (String_ src) as [v|]; [|discriminate]. simpl in He, Hfe.
  destruct (Graphlib.hasNode g0 v) eqn:Hsrc; [|discriminate].
  destruct (get e "target") as [tgt|]; [|discriminate]. simpl in He, Hfe.
  destruct (String_ tgt) as [w|]; [|discriminate]. simpl in He, Hfe.
  injection He as Htgt. injection Hfe as <-. simpl. auto.
Qed.

Lemma AppJsx_addNodes_hasNode (raw : list value) (g g' : Graphlib.Graph)
  (k : string) :
  AppJsx.addNodes raw g = Ok g' ->
  Graphlib.hasNode g' k = true ->
  Graphlib.hasNode g k = true
  \/ exists n id, In n raw /\ get n "id" = Ok id /\ ToString id = k.
Proof.
  unfold AppJsx.addNodes.
  revert g. induction raw as [|n raw IH]; intros g H Hk; simpl in H.
  - injection H as <-. auto.
  - destruct (get n "id") as [id|] eqn:Hid; [|discriminate]. simpl in H.
    destruct (String_ id) as [v|] eqn:Hv; [|discriminate]. simpl in H.
    apply String_inv in Hv as [_ ->].
    destruct (IH _ H Hk) as [Hg|(n' & id' & Hin & Hget & Hstr)].
    + apply hasNode_setNode in Hg as [[<- _]|Hg]; [|auto].
      right. exists n, id. simpl. auto.
    + right. exists n', id'. simpl. auto.
Qed.

Lemma AppJsx_addNodes_edges (raw : list value) (g g' : Graphlib.Graph) :
  AppJsx.addNodes raw g = Ok g' ->
  Graphlib._edgeObjs g' = Graphlib._edgeObjs g.
Proof.
  unfold AppJsx.addNodes.
  revert g. induction raw as [|n raw IH]; intros g H; simpl in H.
  - injection H as <-. reflexivity.
  - destruct (get n "id"); [|discriminate]. simpl in H.
    destruct (String_ a); [|discriminate]. simpl in H.
    rewrite (IH _ H). reflexivity.
Qed.

Lemma AppJsx_flowNode_ids (raw : list value) (ns : list FlowNode)
  (n id : value) :
  mapM AppJsx.flowNode raw = Ok ns ->
  In n raw -> get n "id" = Ok id ->
  In (ToString id) (node_ids ns).
Proof.
  intros H%mapM_Forall2. induction H as [|n0 fn raw ns Hfn _ IH];
    intros Hin Hid; [contradiction|].
  destruct Hin as [->|Hin]; [|right; auto].
  left. unfold AppJsx.flowNode in Hfn. rewrite Hid in Hfn. simpl in Hfn.
  destruct (String_ id) as [v|] eqn:Hv; [|discriminate]. simpl in Hfn.
  apply String_inv in Hv as [_ ->].
  destruct (get n "name"); [|discriminate]. simpl in Hfn.
  destruct (call_includes id "__"); [|discriminate]. simpl in Hfn.
  injection Hfn as <-. reflexivity.
Qed.

Lemma setEdge_existing (g : Graphlib.Graph) (v w : string) :
  Graphlib.hasNode g v = true -> Graphlib.hasNode g w = true ->
  Graphlib.setEdge v w g
  = {| Graphlib._nodes := Graphlib._nodes g;
       Graphlib._edgeObjs := {[ (v, w) ]} ∪ Graphlib._edgeObjs g |}.
Proof.
  intros Hv Hw. unfold Graphlib.setEdge, Graphlib.ensureNode.
  rewrite Hv, Hw. reflexivity.
Qed.

(** The guarded [setEdge] of [src/App.jsx] adds no node, and adds an edge
    only between two nodes of the graph. *)
Lemma AppJsx_addEdges_closed (es : list value) (g g' : Graphlib.Graph) :
  AppJsx.addEdges es g = Ok g' ->
  Graphlib._nodes g' = Graphlib._nodes g
  /\ forall v w, (v, w) ∈ Graphlib._edgeObjs g' ->
       (v, w) ∈ Graphlib._edgeObjs g
       \/ (Graphlib.hasNode g v = true /\ Graphlib.hasNode g w = true).
Proof.
  unfold AppJsx.addEdges.
  revert g. induction es as [|e es IH]; intros g H; simpl in H.
  - injection H as <-. auto.
  - destruct (get e "source") as [src|]; [|discriminate]. simpl in H.
    destruct (String_ src) as [a|]; [|discriminate]. simpl in H.
    destruct (Graphlib.hasNode g a) eqn:Hsrc; [|auto].
    destruct (get e "target") as [tgt|]; [|discriminate]. simpl in H.
    destruct (String_ tgt) as [b|]; [|discriminate]. simpl in H.
    destruct (Graphlib.hasNode g b) eqn:Htgt; [|auto].
    simpl in H. rewrite (setEdge_existing _ _ _ Hsrc Htgt) in H.
    destruct (IH _ H) as [Hnodes Hedges]. simpl in Hnodes.
    split; [exact Hnodes|].
    intros v w Hvw. destruct (Hedges v w Hvw) as [Hold|Hnew].
    + simpl in Hold. apply elem_of_union in Hold as [Hone|Hold]; [|auto].
      apply elem_of_singleton in Hone. injection Hone as -> ->. auto.
    + right. exact Hnew.
Qed.

(** X2: in [src/App.jsx] the graph given to the layout is closed: both ends
    of every edge of it are ids of nodes given to React Flow. *)
Lemma AppJsx_layout_closed (data : value) (ns : list FlowNode)
  (es : list FlowEdge) (g : Graphlib.Graph) (v w : string) :
  AppJsx.graphModel data = Ok (ns, es, g) ->
  (v, w) ∈ Graphlib._edgeObjs g ->
  In v (node_ids ns) /\ In w (node_ids ns).
Proof.
  unfold AppJsx.graphModel. intros H Hvw.
  destruct (AppJsx.rawNodes data) as [raw|]; [|discriminate]. simpl in H.
  destruct (AppJsx.addNodes raw Graphlib.empty) as [g0|] eqn:Hg0;
    [|discriminate]. simpl in H.
  destruct (get data "edges") as [edges|]; [|discriminate]. simpl in H.
  destruct (as_array edges) as [items|]; [|discriminate]. simpl in H.
  destruct (AppJsx.addEdges items g0) as [g1|] eqn:Hg1; [|discriminate].
  simpl in H.
  destruct (mapM AppJsx.flowNode raw) as [ns'|] eqn:Hns; [|discriminate].
  simpl in H.
  destruct (mapiM_from 0 AppJsx.flowEdge items) as [fes|]; [|discriminate].
  simpl in H. injection H as <- <- <-.
  assert (Hnode : forall k, Graphlib.hasNode g0 k = true -> In k (node_ids ns')).
  { intros k Hk.
    destruct (AppJsx_addNodes_hasNode raw _ _ k Hg0 Hk)
      as [Hempty|(n & id & Hin & Hid & <-)].
    - discriminate.
    - eapply AppJsx_flowNode_ids; eassumption. }
  assert (Hempty : Graphlib._edgeObjs g0 = ∅)
    by apply (AppJsx_addNodes_edges raw _ _ Hg0).
  destruct (AppJsx_addEdges_closed items g0 g1 Hg1) as [_ Hedges].
  destruct (Hedges v w Hvw) as [Hold|[Hv Hw]].
  - rewrite Hempty in Hold. apply not_elem_of_empty in Hold. contradiction.
  - auto.
Qed.

(** ** Further facts about the two consoles *)

(** [src/App.jsx] ignores an input that is blank, and otherwise appends
    the message of the user before it makes the request. *)
Lemma handleSubmit_blank (parse : string -> result value)
  (net : AppJsx.Request -> Outcome) (s : AppJsx.State) :
  trim (AppJsx.input s) = "" ->
  AppJsx.handleSubmit parse net s = (s, Ok tt).
Proof.
  intros H. unfold AppJsx.handleSubmit, AppJsx.handleSubmit_begin.
  rewrite H. reflexivity.
Qed.

Lemma handleSubmit_begin_spec (s : AppJsx.State) :
  trim (AppJsx.input s) <> "" ->
  exists s1,
    AppJsx.handleSubmit_begin s = Some (s1, {| AppJsx.req_input := AppJsx.input s |})
    /\ AppJsx.messages s1 = AppJsx.messages s ++ [AppJsx.userMessage (AppJsx.input s)]
    /\ AppJsx.input s1 = ""
    /\ AppJsx.requests s1
       = AppJsx.requests s ++ [{| AppJsx.req_input := AppJsx.input s |}].
Proof.
  intros H. unfold AppJsx.handleSubmit_begin.
  destruct (String.eqb_spec (trim (AppJsx.input s)) "") as [Heq|_];
    [contradiction|].
  eexists. split; [reflexivity|]. repeat split.
Qed.

(** A rejected request leaves the state of [src/App.jsx] as it was when
    the request was made. *)
Lemma handleSubmit_rejected (parse : string -> result value) (s s1 : AppJsx.State)
  (r : AppJsx.Request) :
  AppJsx.handleSubmit_begin s = Some (s1, r) ->
  AppJsx.handleSubmit parse (fun _ => Rejected) s = (s1, Throw NetworkError).
Proof.
  intros H. unfold AppJsx.handleSubmit. rewrite H. reflexivity.
Qed.

(** Starting a new thread empties the steps and, like [loadThread],
    leaves the active node as it is. *)
Lemma newThread_spec (now : Z) (s : Threads.State) :
  Threads.messages (Threads.newThread now s) = []
  /\ Threads.currentThreadId (Threads.newThread now s)
     = "debug-" +:+ string_of_Z now
  /\ Threads.activeNode (Threads.newThread now s) = Threads.activeNode s.
Proof. repeat split. Qed.

(** Hovering a step highlights its node, leaving it clears the
    highlight. *)
Lemma hover_then_leave (s : Threads.State) :
  let step := Threads.assistantStep (VString "A") (VString "hello") in
  Threads.activeNode (fst (Threads.onMouseEnter step s)) = VString "A"
  /\ Threads.activeNode
       (fst (Threads.onMouseLeave (fst (Threads.onMouseEnter step s))))
     = VNull.
Proof. split; reflexivity. Qed.

(** The steps that [onRun] builds are shown as message sequences. *)
Lemma viewStep_of_steps (val : string) (node content : value) :
  (val <> "" ->
   Threads.viewStep (Threads.userStep val)
   = Ok [Threads.Messages [VString val]])
  /\ (truthy content = true ->
      Threads.viewStep (Threads.assistantStep node content)
      = Ok [Threads.Messages [content]]).
Proof.
  assert (Hstep : forall n c r,
             truthy c = true ->
             Threads.viewStep
               (VObject [("node", n);
                         ("updates",
                          VObject [("messages",
                                    VArray [VObject [("content", c);
                                                     ("role", r)]])])])
             = Ok [Threads.Messages [c]]).
  { intros n c r H. unfold Threads.viewStep. simpl.
    unfold Threads.viewUpdate, Threads.classify. simpl. rewrite H. simpl.
    unfold Threads.messageText. simpl. rewrite H. reflexivity. }
  split.
  - intros H. apply Hstep. simpl.
    destruct (String.eqb_spec val ""); [contradiction | reflexivity].
  - intros H. apply Hstep, H.
Qed.

(** An array whose first element is [null] makes the view throw. *)
Lemma classify_null_head (rest : list value) :
  Threads.classify (VArray (VNull :: rest)) = Throw TypeError.
Proof. reflexivity. Qed.

(** A [null] item of a message sequence makes the view throw. *)
Lemma viewUpdate_null_item :
  Threads.viewUpdate "messages"
    (VArray [VObject [("content", VString "a")]; VNull])
  = Throw TypeError.
Proof. reflexivity. Qed.

(** A graph description without [edges] makes both loaders throw. *)
Lemma graphModel_without_edges :
  let data := VObject [("nodes", VObject [("A", VObject [])])] in
  AppJsx.graphModel data = Throw TypeError
  /\ Threads.graphModel data = Throw TypeError.
Proof. split; vm_compute; reflexivity. Qed.

(** With string ids, duplicate or not, and names present or not, the
    loader of the thread-aware console gives one node per entry and
    labels a node without a name by its id. *)
Lemma graphModel_mapping_example :
  let data :=
    VObject [("nodes", VObject [("A", VObject []);
                                ("__end__", VObject [("name", VString "End")])]);
             ("edges", VArray [VObject [("source", VString "A");
                                        ("target", VString "__end__")]]);
             ("isStateful", VBool true)] in
  exists g,
    Threads.graphModel data
    = Ok ([{| node_id := VString "A"; node_label := VString "A";
              node_virtual := false |};
           {| node_id := VString "__end__"; node_label := VString "End";
              node_virtual := true |}],
          [{| edge_id := "e-0"; edge_source := "A";
              edge_target := "__end__" |}], g)
    /\ elements (Graphlib._edgeObjs g) = [("A", "__end__")].
Proof. eexists. split; vm_compute; reflexivity. Qed.

(** The text of a frame body, character by character, and its reading by
    [JSON.parse]. *)
Lemma node_frame_text :
  let q := String JSON.quote EmptyString in
  node_frame "A" "hello"
  = "{" +:+ q +:+ "node" +:+ q +:+ ":" +:+ q +:+ "A" +:+ q +:+ ","
    +:+ q +:+ "content" +:+ q +:+ ":" +:+ q +:+ "hello" +:+ q +:+ "}"
  /\ JSON.parse (node_frame "A" "hello")
     = Ok (VObject [("node", VString "A"); ("content", VString "hello")])
  /\ done_frame = "{" +:+ q +:+ "done" +:+ q +:+ ":true}"
  /\ JSON.parse done_frame = Ok (VObject [("done", VBool true)])
  /\ keyed_frame "writer" "all done"
     = "{" +:+ q +:+ "writer" +:+ q +:+ ":" +:+ q +:+ "all done" +:+ q +:+ "}".
Proof. repeat split. Qed.

(** [src/App.jsx] reads every frame as [{<node>: <content>}]: of the
    frames of the sentinel scenario it shows the first two under the node
    name [node], and clears the active node at the third. *)
Lemma AppJsx_scenario (s : AppJsx.State) :
  forEach (AppJsx.onLine JSON.parse) (map tagged scenario) s
  = (AppJsx.setActiveNode VNull
       (AppJsx.setMessages
          (fun p => (p ++ [AppJsx.assistantMessage (VString "node") (VString "A")])
                    ++ [AppJsx.assistantMessage (VString "node") (VString "A")])
          s), Ok tt).
Proof. vm_compute. reflexivity. Qed.

(** ** A submission that fails *)

Lemma extends_refl (s : AppJsx.State) : extends s s.
Proof.
  repeat split. exists []. symmetry. apply app_nil_r.
Qed.

Lemma extends_trans (s1 s2 s3 : AppJsx.State) :
  extends s1 s2 -> extends s2 s3 -> extends s1 s3.
Proof.
  intros (Hn & He & Hi & Hr & m1 & Hm1) (Hn' & He' & Hi' & Hr' & m2 & Hm2).
  repeat split; try congruence.
  exists (m1 ++ m2). rewrite Hm2, Hm1. symmetry. apply app_assoc.
Qed.

Section AppJsxExtends.
Variable parse : string -> result value.

Lemma AppJsx_onLine_extends (line : string) (s : AppJsx.State) :
  extends s (fst (AppJsx.onLine parse line s)).
Proof.
  unfold AppJsx.onLine.
  destruct (negb (String.prefix "data: " line)); [apply extends_refl|].
  assert (Hact : forall s0 v, extends s0 (AppJsx.setActiveNode v s0)).
  { intros s0 v. repeat split. exists []. symmetry. apply app_nil_r. }
  destruct (includes "done" line); [apply Hact|].
  unfold try_catch, AppJsx.decodeFrame, bind, lift, update.
  destruct (parse _) as [data|e]; [|apply extends_refl].
  destruct (Object_keys data) as [keys|e]; [|apply extends_refl].
  simpl. destruct (get data _) as [content|e]; simpl; [|apply Hact].
  eapply extends_trans; [apply Hact|].
  repeat split. eexists. reflexivity.
Qed.

(** The loop ends in the state that the chunks lead to, whether the
    stream is closed or breaks; it throws exactly when the stream
    breaks. *)
Lemma AppJsx_readAll_state (cs : list string) (fails : bool) (s : AppJsx.State) :
  fst (AppJsx.readAll parse cs fails s) = fst (AppJsx.readAll parse cs false s)
  /\ snd (AppJsx.readAll parse cs fails s)
     = (if fails then Throw NetworkError else Ok tt).
Proof.
  revert s. induction cs as [|c cs IH]; intros s; simpl.
  - destruct fails; split; reflexivity.
  - unfold bind. pose proof (AppJsx_onChunk_ok parse c s) as Hok.
    destruct (AppJsx.onChunk parse c s) as [s' r]. simpl in Hok. subst r.
    apply IH.
Qed.

Lemma AppJsx_readAll_extends (cs : list string) (fails : bool) (s : AppJsx.State) :
  extends s (fst (AppJsx.readAll parse cs fails s)).
Proof.
  revert s. induction cs as [|c cs IH]; intros s; simpl.
  - destruct fails; apply extends_refl.
  - unfold bind. pose proof (AppJsx_onChunk_ok parse c s) as Hok.
    assert (Hg : extends s (fst (AppJsx.onChunk parse c s))).
    { unfold AppJsx.onChunk.
      apply (forEach_preserves (AppJsx.onLine parse) (AppJsx_onLine_ok parse)
               extends);
        auto using extends_refl, AppJsx_onLine_extends.
      apply extends_trans. }
    destruct (AppJsx.onChunk parse c s) as [s' r]. simpl in *. subst r.
    eapply extends_trans; [exact Hg | apply IH].
Qed.

End AppJsxExtends.

(** C7, as amended: in the thread-aware console for every non-empty input,
    and in [src/App.jsx] for every input that is not blank, the handler
    calls [setMessages] with the step of the user before it calls [fetch],
    and it calls [fetch] once; when the request or a read of the stream
    fails, the handler ends with that error in the state that the chunks
    received so far have led to: the step of the user and the steps decoded
    so far are all there, and the one request is the only one made.
    Neither component keeps a busy flag. *)
Theorem submit_failure_keeps_steps (parse : string -> result value) :
  (forall (val : string) (net : Threads.Request -> Outcome) (s : Threads.State),
     val <> "" ->
     let r := {| Threads.req_input := val;
                 Threads.req_threadId := Threads.currentThreadId s |} in
     let calls := Threads.onRun_calls val (Threads.currentThreadId s) in
     let pending := fold_left Threads.call calls s in
     let run := Threads.onRun parse val net s in
     breaks (net r) ->
     precedes (Threads.Append (Threads.userStep val)) (Threads.Fetch r) calls
     /\ Threads_fetches calls = [r]
     /\ Threads.onRun_begin val s = Some (pending, r)
     /\ Threads.messages pending = Threads.messages s ++ [Threads.userStep val]
     /\ Threads.requests pending = Threads.requests s ++ [r]
     /\ run = (fst (Threads.readAll parse (arrived (net r)) false pending),
               Throw NetworkError)
     /\ (exists more,
           Threads.messages (fst run)
           = Threads.messages s ++ Threads.userStep val :: more)
     /\ Threads.requests (fst run) = Threads.requests s ++ [r])
  /\ (forall (net : AppJsx.Request -> Outcome) (s : AppJsx.State),
        trim (AppJsx.input s) <> "" ->
        let val := AppJsx.input s in
        let r := {| AppJsx.req_input := val |} in
        let calls := AppJsx.handleSubmit_calls val in
        let pending := fold_left AppJsx.call calls s in
        let run := AppJsx.handleSubmit parse net s in
        breaks (net r) ->
        precedes (AppJsx.Append (AppJsx.userMessage val)) (AppJsx.Fetch r) calls
        /\ AppJsx_fetches calls = [r]
        /\ AppJsx.handleSubmit_begin s = Some (pending, r)
        /\ AppJsx.messages pending
           = AppJsx.messages s ++ [AppJsx.userMessage val]
        /\ AppJsx.requests pending = AppJsx.requests s ++ [r]
        /\ run = (fst (AppJsx.readAll parse (arrived (net r)) false pending),
                  Throw NetworkError)
        /\ (exists more,
              AppJsx.messages (fst run)
              = AppJsx.messages s ++ AppJsx.userMessage val :: more)
        /\ AppJsx.requests (fst run) = AppJsx.requests s ++ [r]).
Proof.
  split.
  - intros val net s Hval r calls pending run Hbreak.
    assert (Hbegin : Threads.onRun_begin val s = Some (pending, r)).
    { unfold Threads.onRun_begin.
      destruct (String.eqb_spec val "") as [->|_]; [contradiction|].
      reflexivity. }
    assert (Hrun : run = (fst (Threads.readAll parse (arrived (net r)) false
                                 pending), Throw NetworkError)).
    { unfold run, Threads.onRun. rewrite Hbegin. unfold Threads.onRun_resume.
      destruct (net r) as [|body]; simpl in *; [reflexivity|].
      unfold bind. rewrite Hbreak.
      destruct (Threads_readAll_state parse (chunks body) true pending)
        as [Hst Hres].
      destruct (Threads.readAll parse (chunks body) true pending) as [s2 res].
      simpl in Hst, Hres. subst s2 res. reflexivity. }
    destruct (Threads_readAll_grows parse (arrived (net r)) false pending)
      as (_ & _ & _ & _ & Hreq' & more & Hmore).
    split; [exists [], [], []; reflexivity|].
    split; [reflexivity|]. split; [exact Hbegin|].
    split; [reflexivity|]. split; [reflexivity|]. split; [exact Hrun|].
    split.
    + exists more. rewrite Hrun. simpl fst. rewrite Hmore.
      change (Threads.messages pending)
        with (Threads.messages s ++ [Threads.userStep val]).
      rewrite <- app_assoc. reflexivity.
    + rewrite Hrun. simpl fst. rewrite Hreq'. reflexivity.
  - intros net s Hinput val r calls pending run Hbreak.
    assert (Hbegin : AppJsx.handleSubmit_begin s = Some (pending, r)).
    { unfold AppJsx.handleSubmit_begin.
      destruct (String.eqb_spec (trim (AppJsx.input s)) "") as [Heq|_];
        [contradiction|].
      reflexivity. }
    assert (Hrun : run = (fst (AppJsx.readAll parse (arrived (net r)) false
                                 pending), Throw NetworkError)).
    { unfold run, AppJsx.handleSubmit. rewrite Hbegin.
      unfold AppJsx.handleSubmit_resume.
      destruct (net r) as [|body]; simpl in *; [reflexivity|].
      rewrite Hbreak.
      destruct (AppJsx_readAll_state parse (chunks body) true pending)
        as [Hst Hres].
      destruct (AppJsx.readAll parse (chunks body) true pending) as [s2 res].
      simpl in Hst, Hres. subst s2 res. reflexivity. }
    destruct (AppJsx_readAll_extends parse (arrived (net r)) false pending)
      as (_ & _ & _ & Hreq' & more & Hmore).
    split; [exists [AppJsx.SetInput ""], [], []; reflexivity|].
    split; [reflexivity|]. split; [exact Hbegin|].
    split; [reflexivity|]. split; [reflexivity|]. split; [exact Hrun|].
    split.
    + exists more. rewrite Hrun. simpl fst. rewrite Hmore.
      change (AppJsx.messages pending)
        with (AppJsx.messages s ++ [AppJsx.userMessage val]).
      rewrite <- app_assoc. reflexivity.
    + rewrite Hrun. simpl fst. rewrite Hreq'. reflexivity.
Qed.

Lemma submit_failure_keeps_steps_witness :
  "hi" <> ""
  /\ breaks broken_stream
  /\ (exists more,
        Threads.messages
          (fst (Threads.onRun JSON.parse "hi" (fun _ => broken_stream)
                  running_state))
        = Threads.messages running_state ++ Threads.userStep "hi" :: more)
  /\ trim (AppJsx.input (typed "hi")) <> ""
  /\ AppJsx.requests
       (fst (AppJsx.handleSubmit JSON.parse (fun _ => Rejected) (typed "hi")))
     = [{| AppJsx.req_input := "hi" |}].
Proof.
  assert (H1 : "hi" <> "") by discriminate.
  assert (H2 : breaks broken_stream) by reflexivity.
  assert (H3 : trim (AppJsx.input (typed "hi")) <> "")
    by (vm_compute; discriminate).
  split; [exact H1|]. split; [exact H2|].
  destruct (submit_failure_keeps_steps JSON.parse) as [HT HA].
  split; [|split; [exact H3|]].
  - destruct (HT "hi" (fun _ => broken_stream) running_state H1 H2)
      as (_ & _ & _ & _ & _ & _ & Hmsg & _).
    exact Hmsg.
  - destruct (HA (fun _ => Rejected) (typed "hi") H3 I)
      as (_ & _ & _ & _ & _ & _ & _ & Hreq).
    exact Hreq.
Defined.

(** C7 fails as stated, in two ways. There is no busy flag that the
    failure could clear: when the request is rejected, the state in which
    the request was pending and the state after the failure are the same
    state, so no flag read from the state is set in the first and cleared
    in the second. And [src/App.jsx] appends nothing for the input of one
    space, which is not empty: it makes no request and leaves the state
    as it is. *)
Lemma submit_clears_no_flag :
  (exists pending r,
     Threads.onRun_begin "hi" running_state = Some (pending, r)
     /\ Threads.onRun JSON.parse "hi" (fun _ => Rejected) running_state
        = (pending, Throw NetworkError)
     /\ ~ exists isBusy : Threads.State -> bool,
            isBusy pending = true
            /\ isBusy (fst (Threads.onRun JSON.parse "hi" (fun _ => Rejected)
                              running_state)) = false)
  /\ AppJsx.input (typed " ") <> ""
  /\ AppJsx.handleSubmit JSON.parse (fun _ => Rejected) (typed " ")
     = (typed " ", Ok tt).
Proof.
  split; [|split; [discriminate | reflexivity]].
  eexists. eexists. split; [reflexivity|].
  assert (Hrun : forall s' r',
             Threads.onRun_begin "hi" running_state = Some (s', r') ->
             Threads.onRun JSON.parse "hi" (fun _ => Rejected) running_state
             = (s', Throw NetworkError)).
  { intros s' r' H. unfold Threads.onRun. rewrite H. reflexivity. }
  split; [apply (Hrun _ _ eq_refl)|].
  intros (isBusy & Hset & Hcleared).
  rewrite (Hrun _ _ eq_refl) in Hcleared. simpl in Hset, Hcleared. congruence.
Qed.

(** * Further properties *)

(** ** The graph loaders *)

Lemma Threads_graphModel_closed_witness :
  exists ns es g,
    Threads.graphModel two_node_graph = Ok (ns, es, g)
    /\ Forall (fun e => In (edge_source e) (node_ids ns)
                        /\ In (edge_target e) (node_ids ns)) es.
Proof.
  assert (H : exists ns es g, Threads.graphModel two_node_graph = Ok (ns, es, g))
    by (vm_compute; do 3 eexists; reflexivity).
  destruct H as (ns & es & g & H).
  exists ns, es, g. split; [exact H|].
  exact (Threads_graphModel_closed _ _ _ _ H).
Defined.

Lemma AppJsx_layout_closed_witness :
  exists ns es g,
    AppJsx.graphModel two_node_graph = Ok (ns, es, g)
    /\ ("A", "B") ∈ Graphlib._edgeObjs g
    /\ In "A" (node_ids ns) /\ In "B" (node_ids ns).
Proof.
  assert (H : exists ns es g,
             AppJsx.graphModel two_node_graph = Ok (ns, es, g)
             /\ elements (Graphlib._edgeObjs g) = [("A", "B")])
    by (vm_compute; do 3 eexists; split; reflexivity).
  destruct H as (ns & es & g & H & Hel).
  assert (Hin : ("A", "B") ∈ Graphlib._edgeObjs g).
  { apply elem_of_elements. rewrite Hel. apply list_elem_of_In. left. reflexivity. }
  exists ns, es, g. split; [exact H|]. split; [exact Hin|].
  exact (AppJsx_layout_closed _ _ _ _ _ _ H Hin).
Defined.

Lemma get_ok_defined (v x : value) (k : string) :
  get v k = Ok x -> is_nullish v = false.
Proof. destruct v; simpl; intros H; try reflexivity; discriminate. Qed.

Lemma get_opt_ok (v x : value) (k : string) :
  get v k = Ok x -> get_opt v k = x.
Proof. unfold get_opt. intros ->. reflexivity. Qed.


Section Defined.
Context {A B : Type}.


Lemma foldM_inv (f : B -> A -> result B) (P : A -> Prop) (l : list A) :
  (forall b a b', f b a = Ok b' -> P a) ->
  forall b b', foldM f l b = Ok b' -> Forall P l.
Proof.
  intros Hf. induction l as [|a l IH]; intros b b' H; [constructor|].
  simpl in H. destruct (f b a) as [b1|] eqn:Hb; [|discriminate].
  simpl in H. constructor; [eapply Hf, Hb | eapply IH, H].
Qed.

Lemma mapM_defined (f : A -> result B) (l : list A) :
  Forall (fun a => exists b, f a = Ok b) l <-> exists bs, mapM f l = Ok bs.
Proof.
  split.
  - induction 1 as [|a l (b & Hb) _ (bs & IH)]; simpl; [eauto|].
    rewrite Hb, IH. eauto.
  - intros (bs & H%mapM_Forall2).
    induction H; constructor; eauto.
Qed.

End Defined.


(** *** The nodes of the graph that is laid out *)






(** *** When the callbacks of the loaders return *)
















(** ** The ids of the rendered edges *)

Lemma string_of_Z_inj (n m : Z) : string_of_Z n = string_of_Z m -> n = m.
Proof.
  unfold string_of_Z. intros H. apply DecimalZ.to_int_inj.
  assert (Hnil : forall z, Z.to_int z <> Decimal.Pos Decimal.Nil
                           /\ Z.to_int z <> Decimal.Neg Decimal.Nil).
  { intros [|p|p]; simpl; split; try discriminate;
      intros [= Hp]; exact (Unsigned.to_uint_nonnil p Hp). }
  destruct (Hnil n) as [Hn1 Hn2]. destruct (Hnil m) as [Hm1 Hm2].
  pose proof (NilZero.isi _ Hn1 Hn2) as En.
  pose proof (NilZero.isi _ Hm1 Hm2) as Em.
  rewrite H in En. congruence.
Qed.

Lemma index_key_inj (i j : nat) : index_key i = index_key j -> i = j.
Proof. intros H%string_of_Z_inj. lia. Qed.

Lemma append_inj (p s t : string) : p +:+ s = p +:+ t -> s = t.
Proof.
  induction p as [|c p IH]; intros H; [exact H|].
  rewrite !append_cons in H. injection H as H. auto.
Qed.

Lemma mapiM_edge_ids (prefix : string) (f : value -> nat -> result FlowEdge)
  (l : list value) :
  (forall e j fe, f e j = Ok fe -> edge_id fe = prefix +:+ index_key j) ->
  forall i fes, mapiM_from i f l = Ok fes ->
    length fes = length l
    /\ map edge_id fes
       = map (fun j => prefix +:+ index_key j) (seq i (length l)).
Proof.
  intros Hf. induction l as [|e l IH]; intros i fes H; simpl in H.
  - injection H as <-. split; reflexivity.
  - destruct (f e i) as [fe|] eqn:Hfe; [|discriminate]. simpl in H.
    destruct (mapiM_from (S i) f l) as [fes'|] eqn:Hl; [|discriminate].
    injection H as <-. destruct (IH _ _ Hl) as [Hlen Hids].
    split; simpl; [congruence|]. rewrite (Hf _ _ _ Hfe), Hids. reflexivity.
Qed.

Lemma edge_ids_NoDup (prefix : string) (i n : nat) :
  List.NoDup (map (fun j => prefix +:+ index_key j) (seq i n)).
Proof.
  apply Injective_map_NoDup; [|apply seq_NoDup].
  intros a b H. apply index_key_inj, (append_inj prefix), H.
Qed.

(** X5: in the thread-aware console the rendered edges are numbered
    after the filter: whatever edges were dropped, the ids are [e-0],
    [e-1], ... without a gap, and no two rendered edges share an id. *)
Theorem Threads_edge_ids (data : value) (ns : list FlowNode)
  (es : list FlowEdge) (g : Graphlib.Graph) :
  Threads.graphModel data = Ok (ns, es, g) ->
  map edge_id es = map (fun j => "e-" +:+ index_key j) (seq 0 (length es))
  /\ List.NoDup (map edge_id es).
Proof.
  unfold Threads.graphModel. intros H.
  destruct (Threads.rawNodes data) as [raw|]; [|discriminate]. simpl in H.
  destruct (Threads.addNodes raw Graphlib.empty) as [g0|]; [|discriminate].
  simpl in H.
  destruct (get data "edges") as [edges|]; [|discriminate]. simpl in H.
  destruct (as_array edges) as [items|]; [|discriminate]. simpl in H.
  destruct (filterM (Threads.isValidEdge g0) items) as [valid|];
    [|discriminate]. simpl in H.
  destruct (Threads.addEdges valid g0) as [g1|]; [|discriminate]. simpl in H.
  destruct (mapM Threads.flowNode raw) as [ns'|]; [|discriminate]. simpl in H.
  destruct (mapiM_from 0 Threads.flowEdge valid) as [fes|] eqn:Hfes;
    [|discriminate]. simpl in H. injection H as <- <- <-.
  destruct (mapiM_edge_ids "e-" Threads.flowEdge valid) with (i := 0) (fes := fes)
    as [Hlen Hids]; [|exact Hfes|].
  { intros e j fe He. unfold Threads.flowEdge in He.
    destruct (get e "source") as [src|]; [|discriminate]. simpl in He.
    destruct (String_ src); [|discriminate]. simpl in He.
    destruct (get e "target") as [tgt|]; [|discriminate]. simpl in He.
    destruct (String_ tgt); [|discriminate]. simpl in He.
    injection He as <-. reflexivity. }
  rewrite Hlen. split; [exact Hids|]. rewrite Hids. apply edge_ids_NoDup.
Qed.

Lemma Threads_edge_ids_witness :
  exists ns es g,
    Threads.graphModel two_node_graph = Ok (ns, es, g)
    /\ List.NoDup (map edge_id es).
Proof.
  assert (H : exists ns es g, Threads.graphModel two_node_graph = Ok (ns, es, g))
    by (vm_compute; do 3 eexists; reflexivity).
  destruct H as (ns & es & g & H).
  exists ns, es, g. split; [exact H|].
  exact (proj2 (Threads_edge_ids _ _ _ _ H)).
Defined.

(** X6: [src/App.jsx] renders one edge for every edge of the
    description, kept by the layout or not: the rendered edges are as
    many as the edges received, the edge at position [i] has the id
    [edge-i] and the ends of the [i]-th edge received, coerced to
    strings. *)
Theorem AppJsx_edges_unfiltered (data : value) (ns : list FlowNode)
  (es : list FlowEdge) (g : Graphlib.Graph) :
  AppJsx.graphModel data = Ok (ns, es, g) ->
  exists edges,
    get data "edges" = Ok (VArray edges)
    /\ length es = length edges
    /\ map edge_id es
       = map (fun j => "edge-" +:+ index_key j) (seq 0 (length edges))
    /\ List.NoDup (map edge_id es)
    /\ map edge_source es = map (fun e => ToString (get_opt e "source")) edges
    /\ map edge_target es = map (fun e => ToString (get_opt e "target")) edges.
Proof.
  unfold AppJsx.graphModel. intros H.
  destruct (AppJsx.rawNodes data) as [raw|]; [|discriminate]. simpl in H.
  destruct (AppJsx.addNodes raw Graphlib.empty) as [g0|]; [|discriminate].
  simpl in H.
  destruct (get data "edges") as [edges|]; [|discriminate]. simpl in H.
  destruct edges as [| | | | |items|]; try discriminate. simpl in H.
  destruct (AppJsx.addEdges items g0) as [g1|]; [|discriminate]. simpl in H.
  destruct (mapM AppJsx.flowNode raw) as [ns'|]; [|discriminate]. simpl in H.
  destruct (mapiM_from 0 AppJsx.flowEdge items) as [fes|] eqn:Hfes;
    [|discriminate]. simpl in H. injection H as <- <- <-.
  exists items. split; [reflexivity|].
  destruct (mapiM_edge_ids "edge-" AppJsx.flowEdge items)
    with (i := 0) (fes := fes) as [Hlen Hids]; [|exact Hfes|].
  { intros e j fe He. unfold AppJsx.flowEdge in He.
    destruct (get e "source") as [src|]; [|discriminate]. simpl in He.
    destruct (String_ src); [|discriminate]. simpl in He.
    destruct (get e "target") as [tgt|]; [|discriminate]. simpl in He.
    destruct (String_ tgt); [|discriminate]. simpl in He.
    injection He as <-. reflexivity. }
  split; [exact Hlen|]. split; [exact Hids|].
  split; [rewrite Hids; apply edge_ids_NoDup|].
  apply mapiM_Forall2 in Hfes. clear Hlen Hids.
  induction Hfes as [|e fe items fes (j & Hfe) _ [IH1 IH2]];
    [split; reflexivity|].
  unfold AppJsx.flowEdge in Hfe.
  destruct (get e "source") as [src|] eqn:Hsrc; [|discriminate].
  simpl in Hfe.
  destruct (String_ src) as [v|] eqn:Hv; [|discriminate]. simpl in Hfe.
  destruct (get e "target") as [tgt|] eqn:Htgt; [|discriminate]. simpl in Hfe.
  destruct (String_ tgt) as [w|] eqn:Hw; [|discriminate]. simpl in Hfe.
  apply String_inv in Hv as [_ ->]. apply String_inv in Hw as [_ ->].
  injection Hfe as <-. simpl.
  rewrite IH1, IH2, (get_opt_ok _ _ _ Hsrc), (get_opt_ok _ _ _ Htgt).
  split; reflexivity.
Qed.

Lemma AppJsx_edges_unfiltered_witness :
  exists ns es g,
    AppJsx.graphModel two_node_graph = Ok (ns, es, g)
    /\ map edge_target es = ["B"; "Z"].
Proof.
  assert (H : exists ns es g, AppJsx.graphModel two_node_graph = Ok (ns, es, g))
    by (vm_compute; do 3 eexists; reflexivity).
  destruct H as (ns & es & g & H).
  exists ns, es, g. split; [exact H|].
  destruct (AppJsx_edges_unfiltered _ _ _ _ H)
    as (edges & Hedges & _ & _ & _ & _ & Htgt).
  rewrite Htgt. vm_compute in Hedges. injection Hedges as <-.
  vm_compute. reflexivity.
Defined.

(** ** What a stream appends *)

Lemma is_sentinel_spec (content : value) :
  Threads.is_sentinel content = false <-> content <> VString "...".
Proof.
  destruct content; simpl; try (split; [discriminate | reflexivity]).
  destruct (String.eqb_spec s "..."); split; congruence.
Qed.

Section ThreadsEmits.
Variable parse : string -> result value.

(** What a line appends does not depend on the state. *)
Lemma Threads_onLine_emits (line : string) :
  exists more,
    (forall s, Threads.messages (fst (Threads.onLine parse line s))
               = Threads.messages s ++ more)
    /\ length more <= 1
    /\ Forall emitted more.
Proof.
  assert (Hnone : exists more : list value,
             (forall s : Threads.State,
                Threads.messages s = Threads.messages s ++ more)
             /\ length more <= 1 /\ Forall emitted more).
  { exists []. split; [intros s; symmetry; apply app_nil_r|].
    split; [simpl; lia | constructor]. }
  unfold Threads.onLine.
  destruct (negb (String.prefix "data: " line)); [exact Hnone|].
  unfold try_catch, Threads.decodeFrame, bind, lift, update, ret.
  destruct (parse _) as [data|e]; [|exact Hnone].
  destruct (get data "node") as [node|e]; [|exact Hnone].
  destruct (get data "content") as [content|e].
  - destruct (truthy content && negb (Threads.is_sentinel content)) eqn:Hc.
    + exists [Threads.assistantStep node content]. split; [|split].
      * intros s. destruct (truthy node); reflexivity.
      * simpl. lia.
      * constructor; [|constructor]. apply andb_prop in Hc as [Ht Hs].
        exists node, content. split; [reflexivity|]. split; [exact Ht|].
        apply is_sentinel_spec, negb_true_iff, Hs.
    + destruct Hnone as (more & Hm & Hrest). exists more.
      split; [|exact Hrest].
      intros s. destruct (truthy node); simpl; apply Hm.
  - destruct Hnone as (more & Hm & Hrest). exists more.
    split; [|exact Hrest].
    intros s. destruct (truthy node); simpl; apply Hm.
Qed.

Lemma Threads_forEach_emits (lines : list string) :
  exists more,
    (forall s, Threads.messages (fst (forEach (Threads.onLine parse) lines s))
               = Threads.messages s ++ more)
    /\ length more <= length lines
    /\ Forall emitted more.
Proof.
  induction lines as [|l lines (more & IH & Hlen & Hall)].
  - exists []. split; [intros s; symmetry; apply app_nil_r|].
    split; [simpl; lia | constructor].
  - destruct (Threads_onLine_emits l) as (m1 & H1 & Hlen1 & Hall1).
    exists (m1 ++ more). split; [|split].
    + intros s. rewrite (forEach_cons _ (Threads_onLine_ok parse)), IH, H1.
      symmetry. apply app_assoc.
    + rewrite length_app. simpl. lia.
    + apply Forall_app. split; assumption.
Qed.

Lemma Threads_readAll_emits (cs : list string) (fails : bool) :
  exists more,
    (forall s, Threads.messages (fst (Threads.readAll parse cs fails s))
               = Threads.messages s ++ more)
    /\ Forall emitted more.
Proof.
  induction cs as [|c cs (more & IH & Hall)].
  - exists []. split; [|constructor].
    intros s. simpl. destruct fails; symmetry; apply app_nil_r.
  - destruct (Threads_forEach_emits (split_blank_line c)) as (m1 & H1 & _ & Hall1).
    exists (m1 ++ more). split; [|apply Forall_app; split; assumption].
    intros s. simpl. unfold bind.
    pose proof (Threads_onChunk_ok parse c s) as Hok.
    pose proof (H1 s) as Hc. fold (Threads.onChunk parse c) in Hc.
    destruct (Threads.onChunk parse c s) as [s' r]. simpl in Hok, Hc. subst r.
    rewrite IH, Hc. symmetry. apply app_assoc.
Qed.

End ThreadsEmits.

(** X7: in the thread-aware console every line of a chunk appends at
    most one step, whatever the parser makes of it and whatever the
    state is; an appended step is the step of the frame's node with the
    frame's content, and its content is truthy and is not the sentinel
    ["..."]. A chunk appends at most as many steps as it has lines. *)
Theorem frame_appends_at_most_one_step (parse : string -> result value)
  (chunk : string) :
  (forall line,
     exists more,
       (forall s, Threads.messages (fst (Threads.onLine parse line s))
                  = Threads.messages s ++ more)
       /\ length more <= 1 /\ Forall emitted more)
  /\ exists more,
       (forall s, Threads.messages (fst (Threads.onChunk parse chunk s))
                  = Threads.messages s ++ more)
       /\ length more <= length (split_blank_line chunk)
       /\ Forall emitted more.
Proof.
  split.
  - intros line. apply Threads_onLine_emits.
  - apply Threads_forEach_emits.
Qed.

(** X8: a complete account of [onRun] for a non-empty input. The steps
    on display are kept and followed by the step of the user and then by
    the steps of the stream, each with a truthy content other than the
    sentinel; exactly one request is made; the graph, the thread id and
    [isStateful] are left alone; [onRun] ends without an error exactly
    when the response does not break, and then no node is active. *)
Theorem onRun_account (parse : string -> result value) (val : string)
  (net : Threads.Request -> Outcome) (s : Threads.State) :
  val <> "" ->
  let r := {| Threads.req_input := val;
              Threads.req_threadId := Threads.currentThreadId s |} in
  let s' := fst (Threads.onRun parse val net s) in
  (exists more,
     Threads.messages s' = Threads.messages s ++ Threads.userStep val :: more
     /\ Forall emitted more)
  /\ Threads.requests s' = Threads.requests s ++ [r]
  /\ Threads.nodes s' = Threads.nodes s
  /\ Threads.edges s' = Threads.edges s
  /\ Threads.currentThreadId s' = Threads.currentThreadId s
  /\ Threads.isStateful s' = Threads.isStateful s
  /\ (snd (Threads.onRun parse val net s) = Ok tt <-> ~ breaks (net r))
  /\ (~ breaks (net r) -> Threads.activeNode s' = VNull).
Proof.
  intros Hval r s'.
  destruct (Threads_onRun_begin_spec val s Hval) as (s1 & Hbegin & Hmsg & Hreq & _).
  fold r in Hbegin, Hreq.
  assert (Hs1 : Threads.nodes s1 = Threads.nodes s
                /\ Threads.edges s1 = Threads.edges s
                /\ Threads.currentThreadId s1 = Threads.currentThreadId s
                /\ Threads.isStateful s1 = Threads.isStateful s).
  { unfold Threads.onRun_begin in Hbegin.
    destruct (val =? ""); [discriminate|]. injection Hbegin as <-.
    repeat split. }
  destruct Hs1 as (Hn1 & He1 & Ht1 & Hi1).
  subst s'. unfold Threads.onRun. rewrite Hbegin. unfold Threads.onRun_resume.
  destruct (net r) as [|body] eqn:Hnet; simpl.
  - split; [exists []; split; [exact Hmsg | constructor]|].
    repeat split; try assumption; try discriminate; tauto.
  - unfold bind.
    destruct (Threads_readAll_state parse (chunks body) (failed body) s1) as [Hst Hres].
    destruct (Threads_readAll_emits parse (chunks body) (failed body))
      as (more & Hmore & Hall).
    specialize (Hmore s1).
    destruct (Threads_readAll_grows parse (chunks body) (failed body) s1)
      as (Hn & He & Ht & Hi & Hr & _).
    destruct (Threads.readAll parse (chunks body) (failed body) s1) as [s2 res].
    simpl in Hst, Hres, Hmore, Hn, He, Ht, Hi, Hr. subst res.
    destruct (failed body); simpl.
    + split.
      { exists more. split; [|exact Hall].
        rewrite Hmore, Hmsg, <- app_assoc. reflexivity. }
      repeat split; try congruence; try discriminate; tauto.
    + split.
      { exists more. split; [|exact Hall].
        rewrite Hmore, Hmsg, <- app_assoc. reflexivity. }
      repeat split; try congruence; try discriminate.
Qed.

Lemma onRun_account_witness :
  "hi" <> ""
  /\ Threads.requests
       (fst (Threads.onRun JSON.parse "hi" (fun _ => broken_stream) running_state))
     = [{| Threads.req_input := "hi"; Threads.req_threadId := "debug-1" |}].
Proof.
  split; [discriminate|].
  apply (onRun_account JSON.parse "hi" (fun _ => broken_stream) running_state).
  discriminate.
Defined.

(** Decoding a stream composes: the chunks of a stream can be decoded in
    two parts, the second part from the state that the first part has led
    to. *)
Lemma readAll_app (parse : string -> result value) (cs1 cs2 : list string)
  (fails : bool) :
  (forall s, Threads.readAll parse (cs1 ++ cs2) fails s
             = Threads.readAll parse cs2 fails
                 (fst (Threads.readAll parse cs1 false s)))
  /\ (forall s, AppJsx.readAll parse (cs1 ++ cs2) fails s
                = AppJsx.readAll parse cs2 fails
                    (fst (AppJsx.readAll parse cs1 false s))).
Proof.
  split; induction cs1 as [|c cs1 IH]; intros s; try reflexivity.
  - simpl. unfold bind. pose proof (Threads_onChunk_ok parse c s) as Hok.
    destruct (Threads.onChunk parse c s) as [s' r]. simpl in Hok. subst r.
    apply IH.
  - simpl. unfold bind. pose proof (AppJsx_onChunk_ok parse c s) as Hok.
    destruct (AppJsx.onChunk parse c s) as [s' r]. simpl in Hok. subst r.
    apply IH.
Qed.

(** X10: a chunk of a run that is still streaming lands in whatever
    thread is on display: what a chunk appends does not depend on the
    state, so after [loadThread] has put a history on display the chunk
    appends its steps to that history. *)
Theorem chunk_lands_in_displayed_thread (parse : string -> result value)
  (chunk : string) :
  exists more,
    Forall emitted more
    /\ (forall s, Threads.messages (fst (Threads.onChunk parse chunk s))
                  = Threads.messages s ++ more)
    /\ (forall id history s,
          Threads.messages
            (fst (Threads.onChunk parse chunk
                    (Threads.loadThread id (Some history) s)))
          = history ++ more).
Proof.
  destruct (Threads_forEach_emits parse (split_blank_line chunk))
    as (more & Hmore & _ & Hall).
  exists more. split; [exact Hall|]. split; [exact Hmore|].
  intros id history s. unfold Threads.onChunk. rewrite Hmore. reflexivity.
Qed.

(** ** The highlight of [src/App.jsx] *)

Lemma shown_node_app (before : value) (m1 m2 : list value) :
  shown_node before (m1 ++ m2) = shown_node (shown_node before m1) m2.
Proof. apply fold_left_app. Qed.

Section AppJsxHighlight.
Variable parse : string -> result value.

(** A line without the letters [done] leaves the node of the message
    that it appends active, and changes nothing when it appends none. *)
Lemma AppJsx_onLine_shown (line : string) :
  includes "done" line = false ->
  exists more, forall s,
    AppJsx.messages (fst (AppJsx.onLine parse line s))
    = AppJsx.messages s ++ more
    /\ AppJsx.activeNode (fst (AppJsx.onLine parse line s))
       = shown_node (AppJsx.activeNode s) more.
Proof.
  intros Hdone. unfold AppJsx.onLine. rewrite Hdone.
  assert (Hnone : forall s : AppJsx.State,
             AppJsx.messages s = AppJsx.messages s ++ []
             /\ AppJsx.activeNode s = shown_node (AppJsx.activeNode s) []).
  { intros s. split; [symmetry; apply app_nil_r | reflexivity]. }
  destruct (negb (String.prefix "data: " line)); [exists []; exact Hnone|].
  unfold try_catch, AppJsx.decodeFrame, bind, lift, update.
  destruct (parse _) as [data|e]; [|exists []; exact Hnone].
  destruct (Object_keys data) as [keys|e] eqn:Hkeys; [|exists []; exact Hnone].
  assert (Hdata : is_nullish data = false)
    by (destruct data; try reflexivity; discriminate).
  rewrite (get_defined data _ Hdata).
  eexists [_]. intros s. split; reflexivity.
Qed.

Lemma AppJsx_forEach_shown (lines : list string) :
  existsb (includes "done") lines = false ->
  exists more, forall s,
    AppJsx.messages (fst (forEach (AppJsx.onLine parse) lines s))
    = AppJsx.messages s ++ more
    /\ AppJsx.activeNode (fst (forEach (AppJsx.onLine parse) lines s))
       = shown_node (AppJsx.activeNode s) more.
Proof.
  induction lines as [|l lines IH]; intros Hdone.
  - exists []. intros s. split; [symmetry; apply app_nil_r | reflexivity].
  - simpl in Hdone. apply orb_false_elim in Hdone as [Hl Hls].
    destruct (AppJsx_onLine_shown l Hl) as (m1 & H1).
    destruct (IH Hls) as (m2 & H2).
    exists (m1 ++ m2). intros s.
    rewrite (forEach_cons _ (AppJsx_onLine_ok parse)).
    destruct (H1 s) as [H1m H1a]. destruct (H2 (fst (AppJsx.onLine parse l s)))
      as [H2m H2a].
    rewrite H2m, H2a, H1m, H1a, shown_node_app.
    split; [symmetry; apply app_assoc | reflexivity].
Qed.

Lemma AppJsx_readAll_shown (cs : list string) (fails : bool) :
  Forall (fun c => mentions_done c = false) cs ->
  exists more, forall s,
    AppJsx.messages (fst (AppJsx.readAll parse cs fails s))
    = AppJsx.messages s ++ more
    /\ AppJsx.activeNode (fst (AppJsx.readAll parse cs fails s))
       = shown_node (AppJsx.activeNode s) more.
Proof.
  induction 1 as [|c cs Hc _ (m2 & H2)].
  - exists []. intros s.
    destruct fails; (split; [symmetry; apply app_nil_r | reflexivity]).
  - destruct (AppJsx_forEach_shown (split_blank_line c) Hc) as (m1 & H1).
    exists (m1 ++ m2). intros s. simpl. unfold bind.
    pose proof (AppJsx_onChunk_ok parse c s) as Hok.
    specialize (H1 s). unfold AppJsx.onChunk in *.
    destruct (forEach (AppJsx.onLine parse) (split_blank_line c) s) as [s' r].
    simpl in Hok, H1. subst r. destruct H1 as [H1m H1a].
    destruct (H2 s') as [H2m H2a].
    rewrite H2m, H2a, H1m, H1a, shown_node_app.
    split; [symmetry; apply app_assoc | reflexivity].
Qed.

End AppJsxHighlight.

(** X11: [src/App.jsx] clears the active node only at a line that
    contains [done]. When no line of the stream does, the active node
    after [handleSubmit] is the node of the last message that the stream
    has appended, that is, the first key of the last frame decoded: that
    node stays highlighted after the stream has ended. (A frame without a
    key gives the node [undefined], a frame whose first key is empty the
    empty string: after such a frame nothing is highlighted.) When the
    stream appends no message, the active node is left as it was. *)
Theorem highlight_outlives_stream (parse : string -> result value)
  (net : AppJsx.Request -> Outcome) (s : AppJsx.State) (body : Body) :
  trim (AppJsx.input s) <> "" ->
  net {| AppJsx.req_input := AppJsx.input s |} = Resolved body ->
  Forall (fun c => mentions_done c = false) (chunks body) ->
  exists more,
    AppJsx.messages (fst (AppJsx.handleSubmit parse net s))
    = AppJsx.messages s ++ AppJsx.userMessage (AppJsx.input s) :: more
    /\ AppJsx.activeNode (fst (AppJsx.handleSubmit parse net s))
       = shown_node (AppJsx.activeNode s) more.
Proof.
  intros Hinput Hnet Hdone.
  destruct (handleSubmit_begin_spec s Hinput) as (s1 & Hbegin & Hmsg & _ & _).
  assert (Hact : AppJsx.activeNode s1 = AppJsx.activeNode s).
  { unfold AppJsx.handleSubmit_begin in Hbegin.
    destruct (trim (AppJsx.input s) =? ""); [discriminate|].
    injection Hbegin as <-. reflexivity. }
  unfold AppJsx.handleSubmit. rewrite Hbegin.
  unfold AppJsx.handleSubmit_resume. rewrite Hnet.
  destruct (AppJsx_readAll_shown parse (chunks body) (failed body) Hdone)
    as (more & Hmore).
  exists more. destruct (Hmore s1) as [Hm Ha].
  rewrite Hm, Ha, Hmsg, Hact, <- app_assoc. split; reflexivity.
Qed.

Lemma highlight_outlives_stream_witness :
  let s := typed "hi" in
  let body := {| chunks := [wire [keyed_frame "agent" "hello"]];
                 failed := false |} in
  trim (AppJsx.input s) <> ""
  /\ Forall (fun c => mentions_done c = false) (chunks body)
  /\ AppJsx.activeNode
       (fst (AppJsx.handleSubmit JSON.parse (fun _ => Resolved body) s))
     = VString "agent".
Proof.
  intros s body.
  assert (H1 : trim (AppJsx.input s) <> "") by (vm_compute; discriminate).
  assert (H2 : Forall (fun c => mentions_done c = false) (chunks body))
    by (repeat constructor).
  split; [exact H1|]. split; [exact H2|].
  destruct (highlight_outlives_stream JSON.parse (fun _ => Resolved body) s body
              H1 eq_refl H2) as (more & Hm & Ha).
  rewrite Ha. vm_compute in Hm. injection Hm as <-. reflexivity.
Defined.

(** ** The card of a step *)

(** X12: the card of a step that the stream decoder has appended. When
    the node of the frame is a string, or is missing or falsy, the card
    is rendered: its header is the node name, or [SYSTEM], in upper case,
    and its body is one message, the content. When the node is truthy
    and not a string (a number, [true], an array or an object), the
    header throws a TypeError and the card is not rendered. *)
Theorem step_card (toUpperCase : string -> string) (node content : value) :
  truthy content = true ->
  (truthy node = true /\ is_string node = false ->
   StepCard.render toUpperCase (Threads.assistantStep node content)
   = Throw TypeError)
  /\ (truthy node = false \/ is_string node = true ->
      StepCard.render toUpperCase (Threads.assistantStep node content)
      = Ok (toUpperCase (header_name node), [Threads.Messages [content]])).
Proof.
  intros Hc.
  pose proof (proj2 (viewStep_of_steps "" node content) Hc) as Hview.
  unfold StepCard.render, StepCard.header. rewrite Hview.
  change (get (Threads.assistantStep node content) "node") with (Ok node).
  simpl. unfold or_else, StepCard.call_toUpperCase.
  split.
  - intros [Ht Hs]. rewrite Ht. destruct node; try discriminate; reflexivity.
  - intros [Hf|Hs].
    + rewrite Hf. simpl.
      destruct node; try reflexivity; try discriminate.
      simpl in Hf. apply negb_false_iff in Hf. simpl. rewrite Hf. reflexivity.
    + destruct node; try discriminate. simpl.
      destruct (s =? ""); reflexivity.
Qed.

Lemma step_card_witness :
  truthy (VString "hello") = true
  /\ StepCard.render (fun s => s) (Threads.assistantStep (VNumber 1) (VString "hello"))
     = Throw TypeError.
Proof.
  split; [reflexivity|].
  apply (step_card (fun s => s) (VNumber 1) (VString "hello")); [reflexivity|].
  split; reflexivity.
Defined.

(** ** The messages of [src/App.jsx] *)

Lemma unprintable_object (props : list (string * value)) :
  unprintable (VObject props) = true <-> assoc "toString" props <> None.
Proof.
  change (unprintable (VObject props))
    with (existsb (fun kv => fst kv =? "toString") props).
  induction props as [|[k v] props IH]; cbn [existsb assoc fst].
  - split; [discriminate | intros H; contradiction].
  - rewrite (String.eqb_sym k "toString").
    destruct ("toString" =? k); cbn [orb]; [|exact IH].
    split; [discriminate | reflexivity].
Qed.

(** X13: what [src/App.jsx] shows for a frame whose first value is an
    object. The frame is appended as a message of its first key; in the
    clean mode the body of that message is the Markdown of
    [String(content)], which for an object is the text
    [[object Object]], unless the object has a property [toString]: then
    [String(content)] throws a TypeError and the message cannot be
    rendered; in the raw mode the body is the object, pretty-printed. *)
Theorem object_update_in_clean_mode (parse : string -> result value)
  (line key : string) (props rest : list (string * value)) (s : AppJsx.State) :
  String.prefix "data: " line = true ->
  includes "done" line = false ->
  parse (replace "data: " "" line) = Ok (VObject ((key, VObject props) :: rest)) ->
  exists m,
    AppJsx.messages (fst (AppJsx.onLine parse line s)) = AppJsx.messages s ++ [m]
    /\ AppJsx.activeNode (fst (AppJsx.onLine parse line s)) = VString key
    /\ (assoc "toString" props = None ->
        MessageCard.body "clean" m = Ok (MessageCard.Markdown "[object Object]"))
    /\ (assoc "toString" props <> None ->
        MessageCard.body "clean" m = Throw TypeError)
    /\ MessageCard.body "raw" m = Ok (MessageCard.Pretty (VObject props)).
Proof.
  intros Htag Hdone Hparse.
  exists (AppJsx.assistantMessage (VString key) (VObject props)).
  unfold AppJsx.onLine. rewrite Htag, Hdone. simpl.
  unfold try_catch, AppJsx.decodeFrame, bind, lift, update. rewrite Hparse.
  simpl. rewrite String.eqb_refl. simpl.
  pose proof (unprintable_object props) as Hown.
  split; [reflexivity|]. split; [reflexivity|].
  unfold MessageCard.body. simpl. unfold String_.
  destruct (unprintable (VObject props)).
  - split; [|split; [reflexivity|reflexivity]].
    intros Hnone. destruct (proj1 Hown eq_refl Hnone).
  - split; [reflexivity|]. split; [|reflexivity].
    intros Hsome. apply Hown in Hsome. discriminate.
Qed.

Lemma object_update_in_clean_mode_witness :
  let line := tagged (JSON.stringify
                        (VObject [("agent",
                                   VObject [("answer", VString "hello")])])) in
  String.prefix "data: " line = true
  /\ includes "done" line = false
  /\ assoc "toString" [("answer", VString "hello")] = None
  /\ exists m,
       AppJsx.messages (fst (AppJsx.onLine JSON.parse line (typed ""))) = [] ++ [m]
       /\ MessageCard.body "clean" m = Ok (MessageCard.Markdown "[object Object]").
Proof.
  intros line. split; [reflexivity|]. split; [reflexivity|].
  split; [reflexivity|].
  destruct (object_update_in_clean_mode JSON.parse line "agent"
              [("answer", VString "hello")] [] (typed ""))
    as (m & Hm & _ & Hclean & _); try reflexivity.
  exists m. split; [exact Hm | exact (Hclean eq_refl)].
Defined.

(** The message of the user is shown as it is in both modes. *)
Lemma user_message_body (mode val : string) :
  MessageCard.body mode (AppJsx.userMessage val)
  = Ok (MessageCard.Plain (VString val)).
Proof.
  unfold MessageCard.body. destruct (mode =? "clean"); reflexivity.
Qed.

(** ** The resizer *)

Lemma onMove_bounds (x : Z) (container : option Resizer.Rect) (stateful : bool)
  (s : Resizer.State) :
  Resizer.onMove x container stateful s = s
  \/ exists rect,
       container = Some rect
       /\ Resizer.isResizing s = true
       /\ (150 < Resizer.graphWidth (Resizer.onMove x container stateful s))%Z
       /\ (Resizer.graphWidth (Resizer.onMove x container stateful s)
           + (if stateful then Resizer.SIDEBAR_WIDTH else 0) + 250
           < Resizer.width rect)%Z.
Proof.
  unfold Resizer.onMove.
  destruct (Resizer.isResizing s) eqn:Hr; simpl; [|left; reflexivity].
  destruct container as [rect|]; [|left; reflexivity].
  match goal with |- context [if ?c then _ else _] => destruct c eqn:Hc end;
    [|left; reflexivity].
  right. exists rect. apply andb_prop in Hc as [H1 H2].
  apply Z.ltb_lt in H1. apply Z.ltb_lt in H2. simpl.
  repeat split; lia.
Qed.

Lemma step_keeps_width_bound (s : Resizer.State) (e : Resizer.Event) :
  (150 < Resizer.graphWidth s)%Z ->
  (150 < Resizer.graphWidth (Resizer.step s e))%Z.
Proof.
  intros H. destruct e as [|x c b|]; simpl.
  - exact H.
  - destruct (onMove_bounds x c b s) as [->|(rect & _ & _ & Hw & _)]; assumption.
  - unfold Resizer.onUp. destruct (Resizer.isResizing s); exact H.
Qed.

Lemma run_app (es1 es2 : list Resizer.Event) (s : Resizer.State) :
  Resizer.run (es1 ++ es2) s = Resizer.run es2 (Resizer.run es1 s).
Proof. unfold Resizer.run. apply fold_left_app. Qed.

Lemma moves_while_resizing (moves : list Resizer.Event) (s : Resizer.State) :
  Forall is_move moves ->
  Resizer.isResizing (Resizer.run moves s) = Resizer.isResizing s
  /\ Resizer.overlays (Resizer.run moves s) = Resizer.overlays s
  /\ Resizer.cursor (Resizer.run moves s) = Resizer.cursor s
  /\ Resizer.userSelect (Resizer.run moves s) = Resizer.userSelect s.
Proof.
  intros H. revert s. induction H as [|e moves He _ IH]; intros s.
  - repeat split.
  - destruct e as [|x c b|]; try contradiction.
    change (Resizer.run (Resizer.MouseMove x c b :: moves) s)
      with (Resizer.run moves (Resizer.onMove x c b s)).
    destruct (IH (Resizer.onMove x c b s)) as (H1 & H2 & H3 & H4).
    rewrite H1, H2, H3, H4.
    destruct (onMove_bounds x c b s) as [->|_]; [repeat split|].
    unfold Resizer.onMove. destruct (Resizer.isResizing s) eqn:Hr; simpl;
      [|repeat split]; try exact Hr.
    destruct c as [rect|]; [|repeat split; exact Hr].
    match goal with |- context [if ?c then _ else _] => destruct c end;
      repeat split; exact Hr.
Qed.

(** X14: the resizer of the thread-aware console. Whatever the mouse
    does, the graph panel stays wider than 150 pixels; a move that
    changes the width leaves more than 250 pixels to the trace panel;
    while no drag is going on, moving or releasing the mouse changes
    nothing; and a drag (press on the bar, moves, release) ends with no
    overlay in the document and the cursor and the text selection
    switched back on. *)
Theorem resizer_keeps_panels_visible (events moves : list Resizer.Event)
  (s : Resizer.State) :
  (150 < Resizer.graphWidth s)%Z ->
  Resizer.isResizing s = false ->
  Resizer.overlays s = 0 ->
  Forall is_move moves ->
  (150 < Resizer.graphWidth (Resizer.run events s))%Z
  /\ (forall x c b, Resizer.onMove x c b s = s)
  /\ Resizer.onUp s = s
  /\ (forall x rect b s0,
        Resizer.onMove x (Some rect) b s0 <> s0 ->
        (Resizer.graphWidth (Resizer.onMove x (Some rect) b s0)
         + (if b then Resizer.SIDEBAR_WIDTH else 0) + 250
         < Resizer.width rect)%Z)
  /\ (let s' := Resizer.run (Resizer.MouseDown :: moves ++ [Resizer.MouseUp]) s in
      Resizer.isResizing s' = false
      /\ Resizer.overlays s' = 0
      /\ Resizer.cursor s' = "default"
      /\ Resizer.userSelect s' = "auto"
      /\ (150 < Resizer.graphWidth s')%Z).
Proof.
  intros Hw Hidle Hov Hmoves.
  assert (Hinv : forall es s0, (150 < Resizer.graphWidth s0)%Z ->
                               (150 < Resizer.graphWidth (Resizer.run es s0))%Z).
  { induction es as [|e es IH]; intros s0 H0; [exact H0|].
    apply IH, step_keeps_width_bound, H0. }
  split; [apply Hinv, Hw|].
  split; [intros x c b; unfold Resizer.onMove; rewrite Hidle; reflexivity|].
  split; [unfold Resizer.onUp; rewrite Hidle; reflexivity|].
  split.
  { intros x rect b s0 Hne.
    destruct (onMove_bounds x (Some rect) b s0)
      as [Heq|(rect' & [= <-] & _ & _ & Hlt)]; [contradiction | exact Hlt]. }
  intros s'.
  assert (Hs' : s' = Resizer.onUp (Resizer.run moves (Resizer.startResizing s))).
  { subst s'.
    change (Resizer.run (Resizer.MouseDown :: moves ++ [Resizer.MouseUp]) s)
      with (Resizer.run (moves ++ [Resizer.MouseUp]) (Resizer.startResizing s)).
    rewrite run_app. reflexivity. }
  destruct (moves_while_resizing moves (Resizer.startResizing s) Hmoves)
    as (H1 & H2 & _ & _).
  simpl in H1, H2. rewrite Hov in H2.
  assert (Hw' : (150 < Resizer.graphWidth s')%Z) by (apply Hinv, Hw).
  rewrite Hs' in *. unfold Resizer.onUp in *. rewrite H1 in *. simpl in *.
  rewrite H2. repeat split. exact Hw'.
Qed.

Lemma resizer_keeps_panels_visible_witness :
  let rect := {| Resizer.left := 0; Resizer.width := 1400 |} in
  let drag := [Resizer.MouseMove 700 (Some rect) true;
               Resizer.MouseMove 100 (Some rect) true] in
  (150 < Resizer.graphWidth Resizer.initial)%Z
  /\ Forall is_move drag
  /\ Resizer.graphWidth
       (Resizer.run (Resizer.MouseDown :: drag ++ [Resizer.MouseUp])
          Resizer.initial) = 420%Z
  /\ Resizer.overlays
       (Resizer.run (Resizer.MouseDown :: drag ++ [Resizer.MouseUp])
          Resizer.initial) = 0.
Proof.
  intros rect drag.
  assert (H1 : (150 < Resizer.graphWidth Resizer.initial)%Z) by reflexivity.
  assert (H2 : Forall is_move drag) by (repeat constructor).
  split; [exact H1|]. split; [exact H2|]. split; [reflexivity|].
  destruct (resizer_keeps_panels_visible [] drag Resizer.initial H1 eq_refl eq_refl H2)
    as (_ & _ & _ & _ & _ & Hov & _).
  exact Hov.
Defined.

(** ** Whole frames *)

Lemma untag (body : string) : replace "data: " "" (tagged body) = body.
Proof. destruct body; reflexivity. Qed.

Lemma tagged_prefix (body : string) : String.prefix "data: " (tagged body) = true.
Proof. destruct body; reflexivity. Qed.

Lemma split_frame_alone (body : string) :
  no_LF body = true -> split_blank_line (frame body) = [tagged body; ""].
Proof.
  intros H. pose proof (split_blank_line_wire [body]) as Hw.
  change (wire [body]) with (frame body +:+ "") in Hw.
  assert (Hnil : forall t, t +:+ "" = t).
  { induction t as [|c t IH]; [reflexivity|]. rewrite append_cons, IH. reflexivity. }
  rewrite Hnil in Hw. apply Hw. repeat constructor. exact H.
Qed.

(** X15: how a frame that arrives whole in a chunk of its own is
    decoded, for any parser and any body without a line feed that the
    parser reads as a value other than [null]. The tag is taken off once,
    so a body that contains [data: ] again is parsed as it is. In the
    thread-aware console the [node] of the value becomes the active node
    when it is truthy, and a step is appended when its [content] is truthy
    and not the sentinel; in [src/App.jsx], unless the line contains
    [done], the first key of the value becomes the active node and a
    message with the value under that key is appended. *)
Theorem whole_frame_decoded (parse : string -> result value)
  (body : string) (data : value) :
  no_LF body = true ->
  parse body = Ok data ->
  is_nullish data = false ->
  (forall s,
     let node := get_opt data "node" in
     let content := get_opt data "content" in
     let s1 := if truthy node then Threads.setActiveNode node s else s in
     Threads.onChunk parse (frame body) s
     = (if truthy content && negb (Threads.is_sentinel content)
        then Threads.setMessages
               (fun p => p ++ [Threads.assistantStep node content]) s1
        else s1, Ok tt))
  /\ (forall s,
        includes "done" (tagged body) = false ->
        let node := match map fst (own_entries data) with
                    | [] => VUndefined
                    | k :: _ => VString k
                    end in
        AppJsx.onChunk parse (frame body) s
        = (AppJsx.setMessages
             (fun p => p ++ [AppJsx.assistantMessage node
                               (get_opt data (ToString node))])
             (AppJsx.setActiveNode node s), Ok tt)).
Proof.
  intros Hbody Hparse Hdata. split.
  - intros s node content s1.
    unfold Threads.onChunk. rewrite (split_frame_alone body Hbody).
    rewrite (forEach_cons _ (Threads_onLine_ok parse)).
    change (forEach (Threads.onLine parse) [""] ?x) with (x, @Ok unit tt).
    f_equal.
    unfold Threads.onLine. rewrite tagged_prefix. simpl negb. cbv iota.
    unfold try_catch, Threads.decodeFrame, bind, lift, update, ret.
    rewrite untag, Hparse.
    rewrite (get_defined data "node" Hdata), (get_defined data "content" Hdata).
    fold node content. subst s1.
    destruct (truthy node); simpl;
      destruct (truthy content && negb (Threads.is_sentinel content));
      reflexivity.
  - intros s Hdone node.
    unfold AppJsx.onChunk. rewrite (split_frame_alone body Hbody).
    rewrite (forEach_cons _ (AppJsx_onLine_ok parse)).
    change (forEach (AppJsx.onLine parse) [""] ?x) with (x, @Ok unit tt).
    f_equal.
    unfold AppJsx.onLine. rewrite tagged_prefix, Hdone. simpl negb. cbv iota.
    unfold try_catch, AppJsx.decodeFrame, bind, lift, update.
    rewrite untag, Hparse.
    assert (Hkeys : Object_keys data = Ok (map fst (own_entries data))).
    { destruct data; try discriminate; reflexivity. }
    rewrite Hkeys. fold node.
    rewrite (get_defined data (ToString node) Hdata). reflexivity.
Qed.

Lemma whole_frame_decoded_witness :
  no_LF (node_frame "A" "data: hello") = true
  /\ JSON.parse (node_frame "A" "data: hello")
     = Ok (VObject [("node", VString "A"); ("content", VString "data: hello")])
  /\ Threads.messages
       (fst (Threads.onChunk JSON.parse (frame (node_frame "A" "data: hello"))
               running_state))
     = [Threads.userStep "question";
        Threads.assistantStep (VString "A") (VString "data: hello")].
Proof.
  split; [reflexivity|]. split; [reflexivity|].
  destruct (whole_frame_decoded JSON.parse (node_frame "A" "data: hello")
              (VObject [("node", VString "A");
                        ("content", VString "data: hello")]))
    as [Hthreads _]; [reflexivity | reflexivity | reflexivity |].
  rewrite Hthreads. reflexivity.
Defined.

(** ** Splitting a chunk *)

Lemma join_fold (sep : string) (ps : list string) (a b : string) :
  fold_left (fun acc q => acc +:+ sep +:+ q) ps (a +:+ b)
  = a +:+ fold_left (fun acc q => acc +:+ sep +:+ q) ps b.
Proof.
  revert b. induction ps as [|p ps IH]; intros b; [reflexivity|].
  simpl. rewrite append_assoc. apply IH.
Qed.

Lemma join_cons (sep p q : string) (ps : list string) :
  join sep (p :: q :: ps) = p +:+ sep +:+ join sep (q :: ps).
Proof.
  unfold join. simpl. rewrite join_fold.
  f_equal. apply join_fold.
Qed.

Lemma split_blank_line_nonempty (s : string) : split_blank_line s <> [].
Proof.
  destruct s as [|c s]; [discriminate|]. simpl.
  destruct s as [|c' s'].
  - simpl. discriminate.
  - destruct (Ascii.eqb c LF && Ascii.eqb c' LF); [discriminate|].
    unfold cons_head. destruct (split_blank_line (String c' s')); discriminate.
Qed.

Lemma join_cons_head (sep : string) (c : ascii) (ps : list string) :
  ps <> [] -> join sep (cons_head c ps) = String c (join sep ps).
Proof.
  destruct ps as [|p ps]; [contradiction|]. intros _.
  destruct ps as [|q ps]; [reflexivity|].
  simpl cons_head. rewrite !join_cons. reflexivity.
Qed.

(** X16: splitting a chunk at the blank lines loses no character: the
    pieces of [split('\n\n')], joined again by blank lines, are the chunk,
    and there is at least one piece. *)
Theorem split_then_join (chunk : string) :
  split_blank_line chunk <> []
  /\ join blank_line (split_blank_line chunk) = chunk.
Proof.
  split; [apply split_blank_line_nonempty|].
  assert (H : forall n s, String.length s <= n ->
                          join blank_line (split_blank_line s) = s).
  { induction n as [|n IH]; intros s Hlen.
    - destruct s; [reflexivity | simpl in Hlen; lia].
    - destruct s as [|c s]; [reflexivity|]. simpl in Hlen.
      change (split_blank_line (String c s))
        with (match s with
              | String c' s'' =>
                  if Ascii.eqb c LF && Ascii.eqb c' LF
                  then EmptyString :: split_blank_line s''
                  else cons_head c (split_blank_line s)
              | EmptyString => cons_head c (split_blank_line s)
              end).
      destruct s as [|c' s'].
      + reflexivity.
      + destruct (Ascii.eqb c LF && Ascii.eqb c' LF) eqn:Hsep.
        * apply andb_prop in Hsep as [H1 H2].
          apply Ascii.eqb_eq in H1. apply Ascii.eqb_eq in H2. subst c c'.
          simpl in Hlen.
          pose proof (split_blank_line_nonempty s') as Hne.
          destruct (split_blank_line s') as [|p ps] eqn:Hs'; [contradiction|].
          rewrite join_cons. rewrite <- Hs', IH by lia. reflexivity.
        * rewrite join_cons_head by apply split_blank_line_nonempty.
          rewrite IH by lia. reflexivity. }
  apply (H (String.length chunk)). lia.
Qed.

(** ** Blank input *)

Lemma trimStart_step (c1 : ascii) (s1 : string) :
  trimStart (String c1 s1)
  = if is_space c1 then trimStart s1
    else
      match s1 with
      | String c2 s2 =>
          if is_space2 c1 c2 then trimStart s2
          else
            match s2 with
            | String c3 s3 =>
                if is_space3 c1 c2 c3 then trimStart s3 else String c1 s1
            | EmptyString => String c1 s1
            end
      | EmptyString => String c1 s1
      end.
Proof. reflexivity. Qed.

Lemma all_space_step (c1 : ascii) (s1 : string) :
  all_space (String c1 s1)
  = if is_space c1 then all_space s1
    else
      match s1 with
      | String c2 s2 =>
          if is_space2 c1 c2 then all_space s2
          else
            match s2 with
            | String c3 s3 => is_space3 c1 c2 c3 && all_space s3
            | EmptyString => false
            end
      | EmptyString => false
      end.
Proof. reflexivity. Qed.

Lemma trimStart_blank (s : string) :
  (trimStart s = "" <-> all_space s = true)
  /\ all_space (trimStart s) = all_space s.
Proof.
  assert (H : forall n s, String.length s <= n ->
                (trimStart s = "" <-> all_space s = true)
                /\ all_space (trimStart s) = all_space s).
  { induction n as [|n IH]; intros t Hlen.
    - destruct t; [simpl; tauto | simpl in Hlen; lia].
    - destruct t as [|c1 s1]; [simpl; tauto|]. simpl in Hlen.
      assert (Hstay : all_space (String c1 s1) = false ->
                      trimStart (String c1 s1) = String c1 s1 ->
                      (trimStart (String c1 s1) = "" <->
                       all_space (String c1 s1) = true)
                      /\ all_space (trimStart (String c1 s1))
                         = all_space (String c1 s1)).
      { intros Ha Ht. rewrite Ht, Ha. split; [split; discriminate|reflexivity]. }
      pose proof (trimStart_step c1 s1) as Ht.
      pose proof (all_space_step c1 s1) as Ha.
      destruct (is_space c1).
      { rewrite Ht, Ha. apply IH. lia. }
      destruct s1 as [|c2 s2]; [apply Hstay; assumption|]. simpl in Hlen.
      destruct (is_space2 c1 c2).
      { rewrite Ht, Ha. apply IH. lia. }
      destruct s2 as [|c3 s3]; [apply Hstay; assumption|]. simpl in Hlen.
      destruct (is_space3 c1 c2 c3).
      { rewrite Ht, Ha. apply IH. lia. }
      apply Hstay; assumption. }
  apply (H (String.length s)). lia.
Qed.

Lemma trimEnd_empty (s : string) : trimEnd s = "" <-> all_space s = true.
Proof.
  destruct s as [|c s]; [simpl; tauto|].
  change (trimEnd (String c s))
    with (if all_space (String c s) then "" else String c (trimEnd s)).
  destruct (all_space (String c s)); split; try reflexivity; discriminate.
Qed.

Lemma trim_empty (s : string) : trim s = "" <-> all_space s = true.
Proof.
  unfold trim. rewrite trimEnd_empty.
  destruct (trimStart_blank s) as [_ ->]. tauto.
Qed.

(** X17: [src/App.jsx] ignores an input that consists of white space
    (or of nothing): no message, no request, the input field keeps its
    text. White space is what [trim] removes: the ASCII space and the
    characters U+0009 to U+000D, and also the no-break space and the
    other Unicode spaces and line separators. Any other input is
    submitted as typed, with the white space around it: the message of
    the user and the request carry the untrimmed text, and the field is
    emptied. *)
Theorem blank_input_is_ignored (parse : string -> result value)
  (net : AppJsx.Request -> Outcome) (s : AppJsx.State) :
  (all_space (AppJsx.input s) = true ->
   AppJsx.handleSubmit parse net s = (s, Ok tt))
  /\ (all_space (AppJsx.input s) = false ->
      exists s1,
        AppJsx.handleSubmit_begin s
        = Some (s1, {| AppJsx.req_input := AppJsx.input s |})
        /\ AppJsx.messages s1
           = AppJsx.messages s ++ [AppJsx.userMessage (AppJsx.input s)]
        /\ AppJsx.requests s1
           = AppJsx.requests s ++ [{| AppJsx.req_input := AppJsx.input s |}]
        /\ AppJsx.input s1 = "").
Proof.
  split.
  - intros H. apply handleSubmit_blank, trim_empty, H.
  - intros H.
    destruct (handleSubmit_begin_spec s) as (s1 & Hb & Hm & Hi & Hr).
    { intros Ht. apply trim_empty in Ht. congruence. }
    exists s1. repeat split; assumption.
Qed.

Lemma blank_input_is_ignored_witness :
  let s := typed (" " +:+ NBSP) in
  all_space (AppJsx.input s) = true
  /\ AppJsx.handleSubmit JSON.parse (fun _ => Rejected) s = (s, Ok tt).
Proof.
  intros s. split; [reflexivity|].
  apply (blank_input_is_ignored JSON.parse (fun _ => Rejected) s). reflexivity.
Defined.

(** ** The view of a step *)

Lemma messageText_accepts (m : value) :
  is_nullish m = false <-> exists t, Threads.messageText m = Ok t.
Proof.
  split.
  - intros H. rewrite (messageText_defined m H). eauto.
  - intros (t & H). unfold Threads.messageText in H.
    destruct (get m "content") eqn:Hc; [|discriminate].
    eapply get_ok_defined, Hc.
Qed.

Lemma viewUpdate_accepts (key : string) (v : value) :
  view_ok v <-> exists view, Threads.viewUpdate key v = Ok view.
Proof.
  unfold view_ok, Threads.viewUpdate, Threads.classify.
  destruct (null_head v) eqn:Hhead.
  - split; [intros [H _]; discriminate|].
    intros (view & H). exfalso.
    destruct v as [| | | | |[|first rest]|]; try discriminate.
    simpl in Hhead. destruct first; try discriminate; simpl in H; discriminate.
  - destruct (isMessageList_spec v Hhead) as (b & Hb & Hiff). rewrite Hb. simpl.
    destruct (truthy b) eqn:Ht; simpl.
    + assert (Hml : message_list v) by (apply Hiff; reflexivity).
      destruct Hml as (first & rest & -> & Hor). cbn -[mapM].
      assert (Hlist : message_list (VArray (first :: rest)))
        by (exists first, rest; auto).
      split.
      * intros [_ Hitems]. specialize (Hitems Hlist _ eq_refl).
        assert (Hm : exists ts, mapM Threads.messageText (first :: rest) = Ok ts).
        { apply mapM_defined. eapply List.Forall_impl; [|exact Hitems].
          intros m Hm. apply messageText_accepts, Hm. }
        destruct Hm as (ts & Hts). rewrite Hts. cbn. eauto.
      * intros (view & H). split; [reflexivity|].
        intros _ items [= <-].
        destruct (mapM Threads.messageText (first :: rest)) as [ts|] eqn:Hts;
          [|discriminate].
        assert (Hm : exists ts, mapM Threads.messageText (first :: rest) = Ok ts)
          by eauto.
        apply mapM_defined in Hm. eapply List.Forall_impl; [|exact Hm].
        intros m Hm'. apply messageText_accepts, Hm'.
    + split.
      * intros _. destruct (is_string v); simpl; eauto.
      * intros _. split; [reflexivity|]. intros Hml. apply Hiff in Hml.
        discriminate.
Qed.

(** X18: the exact condition under which the view of a step does not
    throw. The updates of a step are shown, one view for each, iff the
    step is not [null] and, for each update, the first element of an
    array value is not [null] and no item of a value taken for a message
    list is [null]. A step without [updates] has an empty body. *)
Theorem viewStep_accepts (step : value) :
  ((exists views, Threads.viewStep step = Ok views)
   <-> is_nullish step = false
       /\ Forall (fun kv => view_ok (snd kv)) (updates_of step))
  /\ (forall views, Threads.viewStep step = Ok views ->
                    length views = length (updates_of step)).
Proof.
  assert (Hentries : forall updates,
             Object_entries (or_else updates (VObject []))
             = Ok (own_entries (or_else updates (VObject [])))).
  { intros updates. unfold or_else.
    destruct updates; simpl; try reflexivity;
      match goal with |- context [if ?c then _ else _] => destruct c end;
      reflexivity. }
  split; [split|].
  - intros (views & H). unfold Threads.viewStep in H.
    destruct (get step "updates") as [updates|] eqn:Hu; [|discriminate].
    pose proof (get_ok_defined _ _ _ Hu) as Hstep. split; [exact Hstep|].
    rewrite (get_defined step "updates" Hstep) in Hu. injection Hu as <-.
    simpl in H. rewrite Hentries in H. simpl in H.
    assert (Hm : exists vs,
               mapM (fun kv => Threads.viewUpdate (fst kv) (snd kv))
                    (updates_of step) = Ok vs) by eauto.
    apply mapM_defined in Hm. eapply List.Forall_impl; [|exact Hm].
    intros kv Hkv. eapply viewUpdate_accepts, Hkv.
  - intros [Hstep Hall]. unfold Threads.viewStep.
    rewrite (get_defined step "updates" Hstep). simpl.
    rewrite Hentries. simpl. fold (updates_of step).
    apply mapM_defined. eapply List.Forall_impl; [|exact Hall].
    intros kv Hkv. apply viewUpdate_accepts, Hkv.
  - intros views H. unfold Threads.viewStep in H.
    destruct (get step "updates") as [updates|] eqn:Hu; [|discriminate].
    pose proof (get_ok_defined _ _ _ Hu) as Hstep.
    rewrite (get_defined step "updates" Hstep) in Hu. injection Hu as <-.
    simpl in H. rewrite Hentries in H. simpl in H.
    apply mapM_Forall2 in H. fold (updates_of step) in H.
    symmetry. eapply Forall2_length, H.
Qed.
